(** * weather-telemetryos: the weather signage application, embedded in Rocq

    The development follows the TypeScript sources:
    - [views/services/weatherService.ts]: [fetchPlacePredictions] and
      [fetchWeatherData];
    - [views/Render.tsx] with the registry of [views/index.tsx];
    - [views/WeatherCard.tsx]: the daily aggregation inside [loadInitialData];
    - [views/utils/temperatureUtils.ts] and [views/utils/weatherIcons.tsx];
    - [views/Settings.tsx]: [handleSave];
    - [workers/weather_service.tsx]: [openWeatherMapWorker].

    Asynchronous functions are sequences of awaited calls; they are written
    in a state-and-exception monad whose state holds the trace of observable
    events (requests, callback invocations, calls of [console.error], store
    writes, timers), the two stores and the two React flags of the settings
    form.  The host (proxy, store and clock of the SDK and of the browser) is a
    record of oracles.  Calls of [console.log] only print and are left out. *)

From Stdlib Require Import ZArith QArith Qround String DecimalString Lqa.
From stdpp Require Import gmap strings list.

Set Warnings "-register-all".

Local Open Scope Z_scope.
Local Open Scope string_scope.
Local Open Scope list_scope.
Local Open Scope stdpp_scope.

(** ** JavaScript values *)

(** The values that [JSON.parse] and property access produce.  Numbers are
    the finite ones, kept as rationals; strings are their UTF-8 bytes. *)
Inductive jsval : Type :=
| JUndefined
| JNull
| JBool (b : bool)
| JNum (q : Q)
| JStr (s : string)
| JArr (items : list jsval)
| JObj (fields : list (string * jsval)).

(** What a [throw] carries: an object built by [new Error(..)] or one of its
    subclasses, or any other value (a promise may reject with anything). *)
Inductive js_exn : Type :=
| ErrorObj (name message : string)
| ThrownValue (v : jsval).

Definition Error (message : string) : js_exn := ErrorObj "Error" message.
Definition TypeError (message : string) : js_exn := ErrorObj "TypeError" message.
Definition RangeError (message : string) : js_exn := ErrorObj "RangeError" message.

(** ToBoolean. *)
Definition truthy (v : jsval) : bool :=
  match v with
  | JUndefined | JNull => false
  | JBool b => b
  | JNum q => negb (Qeq_bool q 0)
  | JStr s => negb (String.eqb s "")
  | JArr _ | JObj _ => true
  end.

(** A parsed object keeps, for a repeated key, the last value. *)
Fixpoint obj_get (fields : list (string * jsval)) (k : string) : jsval :=
  match fields with
  | [] => JUndefined
  | (k', v) :: rest =>
      match obj_get rest k with
      | JUndefined => if String.eqb k' k then v else JUndefined
      | found => found
      end
  end.

(** [v === "literal"] *)
Definition is_str (v : jsval) (literal : string) : bool :=
  match v with
  | JStr s => String.eqb s literal
  | _ => false
  end.

(** Result of a computation that may throw. *)
Inductive outcome (A : Type) : Type :=
| Returned (a : A)
| Thrown (e : js_exn).
Arguments Returned {A} a.
Arguments Thrown {A} e.

(** [v.name] for a name that is neither [length] nor an index and is not
    defined on the built-in prototypes ([status], [predictions], [lat], ..). *)
Definition member (v : jsval) (name : string) : outcome jsval :=
  match v with
  | JUndefined | JNull =>
      Thrown (TypeError ("Cannot read properties of null or undefined: " +:+ name))
  | JObj fields => Returned (obj_get fields name)
  | _ => Returned JUndefined
  end.

(** [v.length === 0] for a value [v] that is not null or undefined. *)
Definition length_is_zero (v : jsval) : bool :=
  match v with
  | JArr items => match items with [] => true | _ => false end
  | JStr s => String.eqb s ""
  | JObj fields =>
      match obj_get fields "length" with
      | JNum q => Qeq_bool q 0
      | _ => false
      end
  | _ => false
  end.

(** [v[0]] for a value [v] that is not null or undefined.  Of a string only
    the first unit is kept; no member read of it is defined anyway. *)
Definition index0 (v : jsval) : jsval :=
  match v with
  | JArr items => match items with [] => JUndefined | x :: _ => x end
  | JStr s => match s with EmptyString => JUndefined | String c _ => JStr (String c EmptyString) end
  | JObj fields => obj_get fields "0"
  | _ => JUndefined
  end.

(** Decimal rendering of an integer, as a template literal prints it. *)
Definition decimal (z : Z) : string := NilZero.string_of_int (Z.to_int z).

(** ** The host *)

(** A string of the UI as its UTF-16 code units: [length] counts those. *)
Definition jsstring : Type := list N.

(** The surrogate halves: D800-DBFF and DC00-DFFF. *)
Definition is_high_surrogate (c : N) : bool := (55296 <=? c)%N && (c <=? 56319)%N.
Definition is_low_surrogate (c : N) : bool := (56320 <=? c)%N && (c <=? 57343)%N.

(** No surrogate stands alone. *)
Fixpoint well_formed_utf16 (s : jsstring) : bool :=
  match s with
  | [] => true
  | c :: rest =>
      if is_high_surrogate c then
        match rest with
        | c' :: rest' => is_low_surrogate c' && well_formed_utf16 rest'
        | [] => false
        end
      else if is_low_surrogate c then false
      else well_formed_utf16 rest
  end.

(** [encodeURIComponent(s)] throws on a lone surrogate.  The encoding is
    one-to-one, so the encoded text is kept as the text itself. *)
Definition encodeURIComponent (s : jsstring) : outcome jsstring :=
  if well_formed_utf16 s then Returned s
  else Thrown (ErrorObj "URIError" "URI malformed").

(** The URLs the application requests, by their variable parts. *)
Inductive request : Type :=
| PlacesAutocomplete (input : jsstring) (key : string)
| GeoDirect (q : jsstring) (appid : string)
| CurrentWeather (lat lon : jsval) (appid units lang : string)
| Forecast (lat lon : jsval) (appid units lang : string)
| WorkerCurrentWeather
| WorkerForecast.

(** A response: [ok], [status] and what [json()] resolves to ([None] when it
    rejects). *)
Record response : Type := {
  ok : bool;
  status : Z;
  body : option jsval
}.

Inductive fetch_result : Type :=
| Resolved (r : response)
| Rejected (e : js_exn).

(** [set(key, value) -> boolean] of a store scope: resolves to [true] once the
    value is stored, resolves to [false] or rejects when it is not. *)
Inductive set_outcome : Type :=
| SetTrue
| SetFalse
| SetReject (e : js_exn).

Inductive scope : Type := Instance | Device.

Record world : Type := {
  VITE_GOOGLE_PLACES_API_KEY : option string;
  VITE_OPENWEATHER_API_KEY : option string;
  proxy_fetch : request -> fetch_result;
  json_error : js_exn;
  store_set : scope -> string -> jsval -> set_outcome;
  toLocaleDateString : string;
  toLocaleTimeString : string;
  format : string -> outcome string
}.

(** ** Events, state and the monad *)

(** The callbacks that receive data; [onError] receives what was caught. *)
Inductive callback : Type :=
| onSuccess | onWeatherData | onForecastData.

Inductive event : Type :=
| EFetch (r : request)
| ECall (cb : callback) (arg : jsval)
| ECallError (e : js_exn)
| EConsoleError (text : string)
| ESet (sc : scope) (key : string) (value : jsval)
| ESetInterval (period_ms : Z).

Record state : Type := {
  trace : list event;
  instance : gmap string jsval;
  device : gmap string jsval;
  loading : bool;
  error : option string
}.

Definition M (A : Type) : Type := state -> outcome A * state.

Definition ret {A} (a : A) : M A := fun s => (Returned a, s).

Definition bind {A B} (m : M A) (k : A -> M B) : M B :=
  fun s =>
    match m s with
    | (Returned a, s') => k a s'
    | (Thrown e, s') => (Thrown e, s')
    end.

Definition throw {A} (e : js_exn) : M A := fun s => (Thrown e, s).

Definition try_catch {A} (m : M A) (handler : js_exn -> M A) : M A :=
  fun s =>
    match m s with
    | (Returned a, s') => (Returned a, s')
    | (Thrown e, s') => handler e s'
    end.

(** [try { m } finally { f }] with a [finally] block that cannot throw. *)
Definition finally {A} (m : M A) (f : M unit) : M A :=
  fun s =>
    match m s with
    | (r, s') => (r, snd (f s'))
    end.

Definition lift {A} (o : outcome A) : M A := fun s => (o, s).

Notation "x <- m ;; k" := (bind m (fun x => k))
  (at level 100, m at next level, right associativity).
Notation "m ;;; k" := (bind m (fun _ => k))
  (at level 100, right associativity).

Definition emit (e : event) : M unit :=
  fun s => (Returned tt,
            {| trace := trace s ++ [e]; instance := instance s;
               device := device s; loading := loading s; error := error s |}).

Definition console_error (text : string) : M unit := emit (EConsoleError text).

(** [await proxy().fetch(url)] *)
Definition fetch (w : world) (r : request) : M response :=
  emit (EFetch r) ;;;
  match proxy_fetch w r with
  | Resolved resp => ret resp
  | Rejected e => throw e
  end.

(** [await response.json()] *)
Definition json (w : world) (r : response) : M jsval :=
  match body r with
  | Some v => ret v
  | None => throw (json_error w)
  end.

Definition write (sc : scope) (key : string) (value : jsval) : M unit :=
  fun s =>
    (Returned tt,
     match sc with
     | Instance =>
         {| trace := trace s; instance := <[key := value]> (instance s);
            device := device s; loading := loading s; error := error s |}
     | Device =>
         {| trace := trace s; instance := instance s;
            device := <[key := value]> (device s); loading := loading s;
            error := error s |}
     end).

(** [await store().<scope>.set(key, value)] *)
Definition set (w : world) (sc : scope) (key : string) (value : jsval) : M bool :=
  emit (ESet sc key value) ;;;
  match store_set w sc key value with
  | SetTrue => write sc key value ;;; ret true
  | SetFalse => ret false
  | SetReject e => throw e
  end.

(** An optional callback, when given, records its argument; the callbacks
    of the settings form only set React state and do not throw.
    [call_error] is the call of [onError]. *)
Definition call (present : bool) (cb : callback) (arg : jsval) : M unit :=
  if present then emit (ECall cb arg) else ret tt.

Definition call_error (present : bool) (e : js_exn) : M unit :=
  if present then emit (ECallError e) else ret tt.

(** [!apiKey] is false only for a non-empty string. *)
Definition configured (key : option string) : option string :=
  match key with
  | Some k => if String.eqb k "" then None else Some k
  | None => None
  end.

Definition initial_state : state :=
  {| trace := []; instance := ∅; device := ∅; loading := false; error := None |}.

(** ** views/services/weatherService.ts *)

Module WeatherService.

Record FetchPredictionsOptions : Type := {
  input : jsstring;
  has_onError : bool
}.

Definition fetchPlacePredictions (w : world) (o : FetchPredictionsOptions) : M unit :=
  if (length (input o) =? 0)%nat || (length (input o) <? 2)%nat then
    call true onSuccess (JArr [])
  else
    try_catch
      (match configured (VITE_GOOGLE_PLACES_API_KEY w) with
       | None => console_error "Google Places API key not configured"
       | Some apiKey =>
           encoded <- lift (encodeURIComponent (input o)) ;;
           response <- fetch w (PlacesAutocomplete encoded apiKey) ;;
           if negb (ok response) then
             throw (Error ("HTTP " +:+ decimal (status response)))
           else
             data <- json w response ;;
             data_status <- lift (member data "status") ;;
             predictions <- lift (member data "predictions") ;;
             if is_str data_status "OK" && truthy predictions then
               call true onSuccess predictions
             else if is_str data_status "ZERO_RESULTS" then
               call true onSuccess (JArr [])
             else
               console_error "API error:" ;;;
               call true onSuccess (JArr [])
       end)
      (fun err =>
         console_error "Error fetching predictions:" ;;;
         call true onSuccess (JArr []) ;;;
         call_error (has_onError o) err).

Record FetchWeatherDataOptions : Type := {
  cityName : jsstring;
  scale : string;
  language : string;
  has_onWeatherData : bool;
  has_onForecastData : bool;
  has_onError' : bool
}.

Definition fetchWeatherData (w : world) (o : FetchWeatherDataOptions) : M unit :=
  try_catch
    (match configured (VITE_OPENWEATHER_API_KEY w) with
     | None => console_error "OpenWeatherMap API key not configured"
     | Some apiKey =>
         (* Step 1: coordinates of the city *)
         encoded <- lift (encodeURIComponent (cityName o)) ;;
         geoResponse <- fetch w (GeoDirect encoded apiKey) ;;
         if negb (ok geoResponse) then
           throw (Error ("Geocoding HTTP " +:+ decimal (status geoResponse)))
         else
           geoData <- json w geoResponse ;;
           if negb (truthy geoData) || length_is_zero geoData then
             throw (Error "Location not found")
           else
             lat <- lift (member (index0 geoData) "lat") ;;
             lon <- lift (member (index0 geoData) "lon") ;;
             (* Step 2: current conditions *)
             let units :=
               if String.eqb (scale o) "Fahrenheit" then "imperial" else "metric" in
             weatherResponse <-
               fetch w (CurrentWeather lat lon apiKey units (language o)) ;;
             if negb (ok weatherResponse) then
               throw (Error ("Weather HTTP " +:+ decimal (status weatherResponse)))
             else
               data <- json w weatherResponse ;;
               call (has_onWeatherData o) onWeatherData data ;;;
               set w Instance "currentWeather" data ;;;
               (* Step 3: forecast *)
               forecastResponse <-
                 fetch w (Forecast lat lon apiKey units (language o)) ;;
               if negb (ok forecastResponse) then
                 throw (Error ("Forecast HTTP " +:+ decimal (status forecastResponse)))
               else
                 forecast <- json w forecastResponse ;;
                 call (has_onForecastData o) onForecastData forecast ;;;
                 set w Instance "forecastWeather" forecast ;;;
                 ret tt
     end)
    (fun err =>
       console_error "❌ Error fetching weather:" ;;;
       call (has_onWeatherData o) onWeatherData JNull ;;;
       call (has_onForecastData o) onForecastData JNull ;;;
       call_error (has_onError' o) err).

End WeatherService.

(** ** Plain objects used as tables *)

(** The names every object literal inherits from [Object.prototype]. *)
Definition object_prototype_members : list string :=
  [ "constructor"; "__defineGetter__"; "__defineSetter__"; "hasOwnProperty";
    "__lookupGetter__"; "__lookupSetter__"; "isPrototypeOf";
    "propertyIsEnumerable"; "toString"; "valueOf"; "__proto__";
    "toLocaleString" ].

Inductive lookup_result (A : Type) : Type :=
| Own (a : A)
| Inherited (name : string)
| Undefined.
Arguments Own {A} a.
Arguments Inherited {A} name.
Arguments Undefined {A}.

Fixpoint own_lookup {A} (table : list (string * A)) (k : string) : option A :=
  match table with
  | [] => None
  | (k', a) :: rest => if String.eqb k' k then Some a else own_lookup rest k
  end.

(** [table[k]] for an object literal [table]. *)
Definition object_lookup {A} (table : list (string * A)) (k : string) : lookup_result A :=
  match own_lookup table k with
  | Some a => Own a
  | None =>
      if existsb (String.eqb k) object_prototype_members then Inherited k
      else Undefined
  end.

(** ** views/index.tsx, views/ViewConfig.ts and views/Render.tsx *)

Module Views.

Inductive theme : Type :=
| Flamingo | Sky | Urban | Watermelon | Neapolitan | Meadow | Forest.

Definition VIEW_REGISTRY : list (string * theme) :=
  [ ("flamingo", Flamingo); ("sky", Sky); ("urban", Urban);
    ("watermelon", Watermelon); ("neapolitan", Neapolitan);
    ("meadow", Meadow); ("forest", Forest) ].

(** The store holds what the settings form wrote; at run time the theme id
    is a string, whatever the [ViewId] type says. *)
Record ViewConfig : Type := { selectedView : string }.

(** What [Render] returns: the placeholder [div], or an element whose type
    is the value found in the registry. *)
Inductive element : Type :=
| Div (text : string)
| Element (type : lookup_result theme).

Definition Render (config : option ViewConfig) : element :=
  match config with
  | None => Div "Please configure the app in Settings"
  | Some c => Element (object_lookup VIEW_REGISTRY (selectedView c))
  end.

(** Whether React throws when it renders the element.  It does for the
    type [undefined].  A member inherited from [Object.prototype] is no
    component either: [__proto__] is an object, which is no element type;
    [constructor] is [Object], which called on the props hands them back,
    and an object is no valid child; the other members are methods that
    React calls without a receiver, and each throws a TypeError on that but
    [toString], which returns a text. *)
Definition crashes (e : element) : bool :=
  match e with
  | Div _ => false
  | Element (Own _) => false
  | Element (Inherited name) => negb (String.eqb name "toString")
  | Element Undefined => true
  end.

End Views.

(** ** Numbers *)

(** [Math.round]: the nearest integer, a tie going up. *)
Definition Math_round (q : Q) : Z := Qfloor (q + (1 # 2)).

(** The numbers [Math.max] and [Math.min] work on: the finite ones and the
    two infinities they start from. *)
Inductive jsnum : Type :=
| NegInfinity
| Finite (q : Q)
| PosInfinity.

Definition jsnum_max (a b : jsnum) : jsnum :=
  match a, b with
  | PosInfinity, _ | _, PosInfinity => PosInfinity
  | NegInfinity, x | x, NegInfinity => x
  | Finite x, Finite y => if Qle_bool x y then Finite y else Finite x
  end.

Definition jsnum_min (a b : jsnum) : jsnum :=
  match a, b with
  | NegInfinity, _ | _, NegInfinity => NegInfinity
  | PosInfinity, x | x, PosInfinity => x
  | Finite x, Finite y => if Qle_bool x y then Finite x else Finite y
  end.

(** [Math.max(...temps)] and [Math.min(...temps)] *)
Definition Math_max (temps : list Q) : jsnum :=
  fold_left (fun acc t => jsnum_max acc (Finite t)) temps NegInfinity.

Definition Math_min (temps : list Q) : jsnum :=
  fold_left (fun acc t => jsnum_min acc (Finite t)) temps PosInfinity.

Definition jsnum_round (x : jsnum) : jsnum :=
  match x with
  | Finite q => Finite (inject_Z (Math_round q))
  | inf => inf
  end.

(** [a <= b] *)
Definition jsnum_le (a b : jsnum) : Prop :=
  match a, b with
  | NegInfinity, _ | _, PosInfinity => True
  | Finite x, Finite y => (x <= y)%Q
  | _, _ => False
  end.

(** ** views/utils/temperatureUtils.ts *)

(** A value of type [number]: NaN, an infinity, or a finite number. *)
Inductive number : Type :=
| NaN
| Num (x : jsnum).

Section Temperature.

(** How the host prints an integer of magnitude above [2^53], where not
    every integer is a double: the shortest digits that read back as the
    same double, padded with zeros, and from [10^21] on in exponent
    notation. *)
Variable large_notation : Z -> string.

(** An integer inside a template literal.  Up to [2^53] in magnitude every
    integer is a double and is printed with all its digits. *)
Definition number_to_string (n : Z) : string :=
  if (Z.abs n <=? 2 ^ 53)%Z then decimal n else large_notation n.

(** [Math.round(temp)] inside the template literal: [Math.round] leaves
    NaN and the infinities as they are. *)
Definition rounded_text (temp : number) : string :=
  match temp with
  | NaN => "NaN"
  | Num NegInfinity => "-Infinity"
  | Num PosInfinity => "Infinity"
  | Num (Finite t) => number_to_string (Math_round t)
  end.

(** [temp] is [None] for [null] and for [undefined]. *)
Definition formatTemperature (temp : option number) (scale : string) : string :=
  match temp with
  | None => "--°" +:+ (if String.eqb scale "Fahrenheit" then "F" else "C")
  | Some t =>
      rounded_text t +:+ "°" +:+
      (if String.eqb scale "Fahrenheit" then "F" else "C")
  end.

End Temperature.

(** ** views/utils/weatherIcons.tsx *)

Inductive icon : Type :=
| WiDaySunny | WiCloudy | WiRain | WiDayRainMix | WiThunderstorm | WiSnow
| WiFog | WiSmoke | WiDust | WiVolcano | WiStrongWind | WiTornado.

Definition icons : list (string * icon) :=
  [ ("Clear", WiDaySunny); ("Clouds", WiCloudy); ("Rain", WiRain);
    ("Drizzle", WiDayRainMix); ("Thunderstorm", WiThunderstorm);
    ("Snow", WiSnow); ("Mist", WiFog); ("Fog", WiFog); ("Haze", WiFog);
    ("Smoke", WiSmoke); ("Dust", WiDust); ("Sand", WiDust); ("Ash", WiVolcano);
    ("Squall", WiStrongWind); ("Tornado", WiTornado) ].

(** [icons[condition] || <WiDaySunny />]; an inherited member is truthy and
    is returned as it is. *)
Definition getWeatherIcon (condition : string) : lookup_result icon :=
  match object_lookup icons condition with
  | Undefined => Own WiDaySunny
  | found => found
  end.

(** ** views/WeatherCard.tsx: the daily aggregation of [loadInitialData] *)

Module WeatherCard.

Record Condition : Type := { main : string; description : string }.

(** One entry of [forecast.list]: [dt] a whole number of Unix seconds,
    [temp] a finite number. *)
Record Sample : Type := {
  dt : Z;
  temp : Q;
  weather : list Condition
}.

(** One value of [dailyData].  [date] is the time value of the [Date] in
    milliseconds; [day_weather] is [item.weather[0]], possibly undefined. *)
Record DayGroup : Type := {
  date : Z;
  temps : list Q;
  day_weather : option Condition;
  dayName : string
}.

Record DailyForecast : Type := {
  day : string;
  day_icon : lookup_result icon;
  hi : jsnum;
  lo : jsnum;
  day_description : string
}.

(** A [Date] holds a time value of at most 8.64e15 ms in magnitude;
    [toISOString] throws on any other. *)
Definition valid_time (ms : Z) : bool := (Z.abs ms <=? 8640000000000000)%Z.

(** [date.toISOString().split("T")[0]] is the UTC calendar date of the time
    value.  A date is kept as the number of its day, counted from the epoch;
    two time values have the same date exactly when they have that number. *)
Definition utc_day (ms : Z) : Z := ms / 86400000.

Definition obind {A B} (o : outcome A) (k : A -> outcome B) : outcome B :=
  match o with
  | Returned a => k a
  | Thrown e => Thrown e
  end.

Fixpoint has_key (dayKey : Z) (dailyData : list (Z * DayGroup)) : bool :=
  match dailyData with
  | [] => false
  | (k, _) :: rest => (k =? dayKey)%Z || has_key dayKey rest
  end.

(** [dailyData[dayKey].temps.push(t)] *)
Fixpoint push_temp (dayKey : Z) (t : Q) (dailyData : list (Z * DayGroup))
  : list (Z * DayGroup) :=
  match dailyData with
  | [] => []
  | (k, g) :: rest =>
      if (k =? dayKey)%Z then
        (k, {| date := date g; temps := temps g ++ [t];
               day_weather := day_weather g; dayName := dayName g |}) :: rest
      else (k, g) :: push_temp dayKey t rest
  end.

Section Aggregation.

(** [date.toLocaleDateString("en-US", { weekday: "long" })], in the time
    zone of the device. *)
Variable weekday : Z -> string.

(** The body of the [forEach] callback.  [dailyData] is the object as the
    list of its entries in insertion order, the order of [Object.values]. *)
Definition add_item (dailyData : list (Z * DayGroup)) (item : Sample)
  : outcome (list (Z * DayGroup)) :=
  let date := dt item * 1000 in
  if valid_time date then
    let dayKey := utc_day date in
    let dailyData' :=
      if has_key dayKey dailyData then dailyData
      else dailyData ++
           [(dayKey, {| date := date; temps := [];
                        day_weather := head (weather item);
                        dayName := weekday date |})] in
    Returned (push_temp dayKey (temp item) dailyData')
  else Thrown (RangeError "Invalid time value").

Fixpoint forEach (items : list Sample) (dailyData : list (Z * DayGroup))
  : outcome (list (Z * DayGroup)) :=
  match items with
  | [] => Returned dailyData
  | item :: rest => obind (add_item dailyData item) (forEach rest)
  end.

(** The callback of [map]. *)
Definition summarize (g : DayGroup) : outcome DailyForecast :=
  match day_weather g with
  | None => Thrown (TypeError "Cannot read properties of undefined: main")
  | Some c =>
      Returned {| day := dayName g;
                  day_icon := getWeatherIcon (main c);
                  hi := jsnum_round (Math_max (temps g));
                  lo := jsnum_round (Math_min (temps g));
                  day_description := description c |}
  end.

Fixpoint map_outcome {A B} (f : A -> outcome B) (l : list A) : outcome (list B) :=
  match l with
  | [] => Returned []
  | a :: rest =>
      obind (f a) (fun b => obind (map_outcome f rest) (fun bs => Returned (b :: bs)))
  end.

(** [l.slice(from, to)] for [0 <= from <= to] *)
Definition slice {A} (from to : nat) (l : list A) : list A :=
  take (to - from) (drop from l).

(** Lines 153-181: from [forecast.list] to the argument of
    [setDailyForecasts]. *)
Definition dailyForecasts (forecast_list : list Sample) : outcome (list DailyForecast) :=
  obind (forEach forecast_list [])
    (fun dailyData => map_outcome summarize (slice 1 5 dailyData.*2)).

End Aggregation.

End WeatherCard.

(** ** The daily aggregation, said independently of the loop

    What the words "group by UTC calendar day in first-encounter order, skip
    the first group, keep at most four, round the maximum and the minimum"
    define, to compare [WeatherCard.dailyForecasts] with. *)

Module DailySpec.
Import WeatherCard.

Definition day_of (item : Sample) : Z := utc_day (dt item * 1000).

(** The days of [items] in the order in which each is first met, the days
    in [seen] left out. *)
Fixpoint days_from (seen : list Z) (items : list Sample) : list Z :=
  match items with
  | [] => []
  | item :: rest =>
      if bool_decide (day_of item ∈ seen) then days_from seen rest
      else day_of item :: days_from (day_of item :: seen) rest
  end.

Definition encounter_days (items : list Sample) : list Z := days_from [] items.

(** The samples of one day, in the order of the list. *)
Definition samples_of_day (d : Z) (items : list Sample) : list Sample :=
  filter (λ item, day_of item = d) items.

Section Spec.

Variable weekday : Z → string.

(** The summary of a group of samples: named and pictured after its first
    sample, with the rounded extremes of its temperatures.  There is none
    for a group without samples or whose first sample has no condition. *)
Definition day_summary (group : list Sample) : option DailyForecast :=
  first ← head group;
  c ← head (weather first);
  Some {| day := weekday (dt first * 1000);
          day_icon := getWeatherIcon (main c);
          hi := jsnum_round (Math_max (temp <$> group));
          lo := jsnum_round (Math_min (temp <$> group));
          day_description := description c |}.

Definition daily_summaries (items : list Sample) : list (option DailyForecast) :=
  (λ d, day_summary (samples_of_day d items))
    <$> take 4 (drop 1 (encounter_days items)).

(** The entry of [dailyData] for day [d] once [items] have been read. *)
Definition group_of (items : list Sample) (d : Z) : DayGroup :=
  let group := samples_of_day d items in
  {| date := from_option (λ first, dt first * 1000) 0 (head group);
     temps := temp <$> group;
     day_weather := first ← head group; head (weather first);
     dayName := from_option (λ first, weekday (dt first * 1000)) "" (head group) |}.

Definition groups_of (items : list Sample) : list (Z * DayGroup) :=
  (λ d, (d, group_of items d)) <$> encounter_days items.

(** A group after [temps.push(t)]. *)
Definition pushed (t : Q) (g : DayGroup) : DayGroup :=
  {| date := date g; temps := temps g ++ [t];
     day_weather := day_weather g; dayName := dayName g |}.

End Spec.

(** A forecast the loop reads to the end and summarizes. *)
Definition well_formed (item : Sample) : Prop :=
  valid_time (dt item * 1000) = true ∧ weather item ≠ [].

End DailySpec.

(** ** views/Settings.tsx: [handleSave] *)

Module Settings.

Record form : Type := {
  config : Views.ViewConfig;
  dateTimeOption : string;
  dateFormat : string;
  timeFormat : string;
  scale : string;
  language : string
}.

Definition setLoading (b : bool) : M unit :=
  fun s => (Returned tt,
            {| trace := trace s; instance := instance s; device := device s;
               loading := b; error := error s |}).

Definition setError (e : option string) : M unit :=
  fun s => (Returned tt,
            {| trace := trace s; instance := instance s; device := device s;
               loading := loading s; error := e |}).

Definition viewConfig_value (f : form) : jsval :=
  JObj [("selectedView", JStr (Views.selectedView (config f)))].

Definition dateTimeSettings_value (f : form) (formattedDate formattedTime : string) : jsval :=
  JObj [ ("option", JStr (dateTimeOption f)); ("dateFormat", JStr (dateFormat f));
         ("timeFormat", JStr (timeFormat f)); ("formattedDate", JStr formattedDate);
         ("formattedTime", JStr formattedTime) ].

Definition scaleSettings_value (f : form) : jsval := JObj [("scale", JStr (scale f))].

Definition languageSettings_value (f : form) : jsval :=
  JObj [("language", JStr (language f))].

(** The formatted date and time, computed between the first and the second
    write; [format] of date-fns throws on a pattern it cannot read. *)
Definition formatted (w : world) (f : form) : M (string * string) :=
  if String.eqb (dateTimeOption f) "Default" then
    ret (toLocaleDateString w, toLocaleTimeString w)
  else if String.eqb (dateTimeOption f) "Custom" then
    formattedDate <- lift (format w (dateFormat f)) ;;
    formattedTime <- lift (format w (timeFormat f)) ;;
    ret (formattedDate, formattedTime)
  else ret ("", "").

Definition handleSave (w : world) (f : form) : M unit :=
  setLoading true ;;;
  setError None ;;;
  finally
    (try_catch
       (success <- set w Instance "viewConfig" (viewConfig_value f) ;;
        if negb success then throw (Error "Failed to save configuration")
        else
          fmt <- formatted w f ;;
          set w Instance "dateTimeSettings" (dateTimeSettings_value f fmt.1 fmt.2) ;;;
          set w Instance "scaleSettings" (scaleSettings_value f) ;;;
          set w Instance "languageSettings" (languageSettings_value f) ;;;
          ret tt)
       (fun err =>
          setError (Some match err with
                         | ErrorObj _ message => message
                         | ThrownValue _ => "Unknown error"
                         end)))
    (setLoading false).

End Settings.

(** ** workers/weather_service.tsx *)

Module Worker.

Definition getCurrentWeather (w : world) : M unit :=
  try_catch
    (response <- fetch w WorkerCurrentWeather ;;
     results <- json w response ;;
     set w Device "currentWeather" results ;;;
     ret tt)
    (fun _ => console_error "Error fetching current weather data:").

Definition getForecast (w : world) : M unit :=
  try_catch
    (response <- fetch w WorkerForecast ;;
     results <- json w response ;;
     set w Device "weatherForecast" results ;;;
     ret tt)
    (fun _ => console_error "Error fetching weather forecast data:").

(** The function handed to [setInterval]. *)
Definition interval_callback (w : world) : M unit := getCurrentWeather w.

Definition openWeatherMapWorker (w : world) : M unit :=
  getCurrentWeather w ;;;
  getForecast w ;;;
  emit (ESetInterval (30 * 60 * 1000)).

(** The worker over time: the start, then one run of the callback for each
    tick of the timer, each under the host as it is at that time. *)
Fixpoint ticks (hosts : list world) : M unit :=
  match hosts with
  | [] => ret tt
  | w :: later => interval_callback w ;;; ticks later
  end.

Definition run (w : world) (hosts : list world) : M unit :=
  openWeatherMapWorker w ;;; ticks hosts.

End Worker.

(** ** Reading a trace *)

Definition requests (t : list event) : list request :=
  omap (fun e => match e with EFetch r => Some r | _ => None end) t.

Definition calls (cb : callback) (t : list event) : list jsval :=
  omap (fun e => match e with
                 | ECall cb' v =>
                     match cb, cb' with
                     | onSuccess, onSuccess
                     | onWeatherData, onWeatherData
                     | onForecastData, onForecastData => Some v
                     | _, _ => None
                     end
                 | _ => None
                 end) t.

Definition error_calls (t : list event) : list js_exn :=
  omap (fun e => match e with ECallError x => Some x | _ => None end) t.

Definition writes (sc : scope) (t : list event) : list (string * jsval) :=
  omap (fun e => match e with
                 | ESet sc' k v =>
                     match sc, sc' with
                     | Instance, Instance | Device, Device => Some (k, v)
                     | _, _ => None
                     end
                 | _ => None
                 end) t.

(** The state [s] after the events [evs], the stores and flags untouched. *)
Definition after (s : state) (evs : list event) : state :=
  {| trace := trace s ++ evs; instance := instance s; device := device s;
     loading := loading s; error := error s |}.

(** The events of the [catch] block of [fetchWeatherData]. *)
Definition caught (o : WeatherService.FetchWeatherDataOptions) (err : js_exn) : list event :=
  [EConsoleError "❌ Error fetching weather:"] ++
  (if WeatherService.has_onWeatherData o then [ECall onWeatherData JNull] else []) ++
  (if WeatherService.has_onForecastData o then [ECall onForecastData JNull] else []) ++
  (if WeatherService.has_onError' o then [ECallError err] else []).

(** The keys [handleSave] writes, in the order of its [set] calls. *)
Definition save_order : list string :=
  ["viewConfig"; "dateTimeSettings"; "scaleSettings"; "languageSettings"].

(** A write that makes [handleSave] give up: one that rejects, or the write
    of [viewConfig] resolving to [false]. *)
Definition failing_write (w : world) (key : string) (value : jsval) : Prop :=
  match store_set w Instance key value with
  | SetTrue => False
  | SetFalse => key = "viewConfig"
  | SetReject _ => True
  end.

(** ** Hosts and inputs to run the definitions on *)

Module Examples.

Definition ok_response (v : jsval) : fetch_result :=
  Resolved {| ok := true; status := 200; body := Some v |}.

Definition failed_response (code : Z) : fetch_result :=
  Resolved {| ok := false; status := code; body := None |}.

Definition astana_prediction : jsval :=
  JObj [ ("place_id", JStr "p1"); ("description", JStr "Astana, Kazakhstan") ].

Definition astana_geo : jsval :=
  JArr [ JObj [ ("name", JStr "Astana"); ("lat", JNum (5117 # 100));
                ("lon", JNum (7143 # 100)); ("country", JStr "KZ") ] ].

Definition astana_weather : jsval :=
  JObj [ ("name", JStr "Astana"); ("main", JObj [("temp", JNum (216 # 10))]) ].

Definition astana_forecast : jsval := JObj [ ("list", JArr []) ].

(** A host where every request of the application is answered. *)
Definition online : world :=
  {| VITE_GOOGLE_PLACES_API_KEY := Some "places-key";
     VITE_OPENWEATHER_API_KEY := Some "weather-key";
     proxy_fetch := fun r =>
       match r with
       | PlacesAutocomplete _ _ =>
           ok_response (JObj [ ("status", JStr "OK");
                               ("predictions", JArr [astana_prediction]) ])
       | GeoDirect _ _ => ok_response astana_geo
       | CurrentWeather _ _ _ _ _ | WorkerCurrentWeather => ok_response astana_weather
       | Forecast _ _ _ _ _ | WorkerForecast => ok_response astana_forecast
       end;
     json_error := ErrorObj "SyntaxError" "Unexpected end of JSON input";
     store_set := fun _ _ _ => SetTrue;
     toLocaleDateString := "Monday, January 15";
     toLocaleTimeString := "09:30 AM";
     format := fun pattern => Returned pattern |}.

(** The same host with another proxy, and with another store. *)
Definition with_proxy (w : world) (p : request -> fetch_result) : world :=
  {| VITE_GOOGLE_PLACES_API_KEY := VITE_GOOGLE_PLACES_API_KEY w;
     VITE_OPENWEATHER_API_KEY := VITE_OPENWEATHER_API_KEY w;
     proxy_fetch := p; json_error := json_error w; store_set := store_set w;
     toLocaleDateString := toLocaleDateString w;
     toLocaleTimeString := toLocaleTimeString w; format := format w |}.

Definition with_store (w : world) (st : scope -> string -> jsval -> set_outcome) : world :=
  {| VITE_GOOGLE_PLACES_API_KEY := VITE_GOOGLE_PLACES_API_KEY w;
     VITE_OPENWEATHER_API_KEY := VITE_OPENWEATHER_API_KEY w;
     proxy_fetch := proxy_fetch w; json_error := json_error w; store_set := st;
     toLocaleDateString := toLocaleDateString w;
     toLocaleTimeString := toLocaleTimeString w; format := format w |}.

(** No Places key in the environment. *)
Definition without_places_key : world :=
  {| VITE_GOOGLE_PLACES_API_KEY := None;
     VITE_OPENWEATHER_API_KEY := VITE_OPENWEATHER_API_KEY online;
     proxy_fetch := proxy_fetch online; json_error := json_error online;
     store_set := store_set online;
     toLocaleDateString := toLocaleDateString online;
     toLocaleTimeString := toLocaleTimeString online; format := format online |}.

(** The forecast endpoint answers 500, the geocoder finds nothing. *)
Definition forecast_down : world :=
  with_proxy online (fun r =>
    match r with
    | Forecast _ _ _ _ _ => failed_response 500
    | _ => proxy_fetch online r
    end).

Definition nowhere : world :=
  with_proxy online (fun r =>
    match r with
    | GeoDirect _ _ => ok_response (JArr [])
    | _ => proxy_fetch online r
    end).

(** The store rejects the write of the scale settings. *)
Definition scale_write_fails : world :=
  with_store online (fun _ k _ =>
    if String.eqb k "scaleSettings" then SetReject (Error "Operation timed out")
    else SetTrue).

(** "As" and "Astana" as UTF-16 code units. *)
Definition typed_As : jsstring := [65%N; 115%N].
Definition Astana : jsstring := [65%N; 115%N; 116%N; 97%N; 110%N; 97%N].

Definition astana_options : WeatherService.FetchWeatherDataOptions :=
  {| WeatherService.cityName := Astana; WeatherService.scale := "Celsius";
     WeatherService.language := "en"; WeatherService.has_onWeatherData := true;
     WeatherService.has_onForecastData := true;
     WeatherService.has_onError' := true |}.

Definition rain : WeatherCard.Condition :=
  {| WeatherCard.main := "Rain"; WeatherCard.description := "light rain" |}.

Definition sample (seconds : Z) (t : Q) : WeatherCard.Sample :=
  {| WeatherCard.dt := seconds; WeatherCard.temp := t;
     WeatherCard.weather := [rain] |}.

(** Two samples of day 0 around two of day 1 and one of day 2. *)
Definition three_days : list WeatherCard.Sample :=
  [ sample 0 1; sample 86400 (5 # 2); sample 10 3; sample 86401 (-1 # 2);
    sample 200000 7 ].

Definition sky_form : Settings.form :=
  {| Settings.config := {| Views.selectedView := "sky" |};
     Settings.dateTimeOption := "Default"; Settings.dateFormat := "MMM-d";
     Settings.timeFormat := "h:mm a"; Settings.scale := "Celsius";
     Settings.language := "en" |}.

End Examples.

(** ** More hosts to run the definitions on *)

Module Hosts.

(** No OpenWeatherMap key in the environment. *)
Definition without_weather_key : world :=
  {| VITE_GOOGLE_PLACES_API_KEY := VITE_GOOGLE_PLACES_API_KEY Examples.online;
     VITE_OPENWEATHER_API_KEY := None;
     proxy_fetch := proxy_fetch Examples.online;
     json_error := json_error Examples.online;
     store_set := store_set Examples.online;
     toLocaleDateString := toLocaleDateString Examples.online;
     toLocaleTimeString := toLocaleTimeString Examples.online;
     format := format Examples.online |}.



End Hosts.

(** ** The chain of [fetchWeatherData] *)

(** The three requests of the chain, for the key and the coordinates. *)
Definition chain (o : WeatherService.FetchWeatherDataOptions) (apiKey : string) (lat lon : jsval)
  : list request :=
  let units := if String.eqb (WeatherService.scale o) "Fahrenheit" then "imperial" else "metric" in
  [ GeoDirect (WeatherService.cityName o) apiKey;
    CurrentWeather lat lon apiKey units (WeatherService.language o);
    Forecast lat lon apiKey units (WeatherService.language o) ].

(** The requests and the writes of a trace, in the order in which they
    happen. *)
Definition steps (t : list event) : list event :=
  omap (fun e => match e with
                 | EFetch _ | ESet _ _ _ => Some e
                 | _ => None
                 end) t.

(** ** views/Settings.tsx: the location search and the weather preview *)

Module SettingsForm.

(** The React state of the form that the two fetches touch. *)
Record ui : Type := {
  locationInput : jsstring;
  predictions : jsval;
  showPredictions : bool;
  searchLoading : bool;
  weatherData : jsval;
  weatherLoading : bool;
  forecastData : jsval;
  selectedCity : jsstring
}.

(** The initial values given to [useState]. *)
Definition initial_ui : ui :=
  {| locationInput := []; predictions := JArr []; showPredictions := false;
     searchLoading := false; weatherData := JNull; weatherLoading := false;
     forecastData := JNull; selectedCity := [] |}.

Definition setPredictions (v : jsval) (u : ui) : ui :=
  {| locationInput := locationInput u; predictions := v;
     showPredictions := showPredictions u; searchLoading := searchLoading u;
     weatherData := weatherData u; weatherLoading := weatherLoading u;
     forecastData := forecastData u; selectedCity := selectedCity u |}.

Definition setSearchLoading (b : bool) (u : ui) : ui :=
  {| locationInput := locationInput u; predictions := predictions u;
     showPredictions := showPredictions u; searchLoading := b;
     weatherData := weatherData u; weatherLoading := weatherLoading u;
     forecastData := forecastData u; selectedCity := selectedCity u |}.

Definition setWeatherData (v : jsval) (u : ui) : ui :=
  {| locationInput := locationInput u; predictions := predictions u;
     showPredictions := showPredictions u; searchLoading := searchLoading u;
     weatherData := v; weatherLoading := weatherLoading u;
     forecastData := forecastData u; selectedCity := selectedCity u |}.

Definition setWeatherLoading (b : bool) (u : ui) : ui :=
  {| locationInput := locationInput u; predictions := predictions u;
     showPredictions := showPredictions u; searchLoading := searchLoading u;
     weatherData := weatherData u; weatherLoading := b;
     forecastData := forecastData u; selectedCity := selectedCity u |}.

Definition setForecastData (v : jsval) (u : ui) : ui :=
  {| locationInput := locationInput u; predictions := predictions u;
     showPredictions := showPredictions u; searchLoading := searchLoading u;
     weatherData := weatherData u; weatherLoading := weatherLoading u;
     forecastData := v; selectedCity := selectedCity u |}.

(** The events a call adds to the trace. *)
Definition added (before after : state) : list event :=
  drop (length (trace before)) (trace after).

(** The callbacks handed to [fetchPlacePredictions], applied to the call
    they are invoked by. *)
Definition search_callback (u : ui) (e : event) : ui :=
  match e with
  | ECall onSuccess v => setSearchLoading false (setPredictions v u)
  | ECallError _ => setSearchLoading false u
  | _ => u
  end.

(** The function the search effect hands to [setTimeout], run 300 ms after
    the last change of [locationInput] or [showPredictions]. *)
Definition search_timer (w : world) (u : ui) (s : state) : ui * state :=
  if showPredictions u && negb (length (locationInput u) =? 0)%nat then
    let s' :=
      (WeatherService.fetchPlacePredictions w
         {| WeatherService.input := locationInput u;
            WeatherService.has_onError := true |} s).2 in
    (fold_left search_callback (added s s') (setSearchLoading true u), s')
  else (u, s).

(** The callbacks handed to [fetchWeatherData]. *)
Definition weather_callback (u : ui) (e : event) : ui :=
  match e with
  | ECall onWeatherData data => setWeatherData data u
  | ECall onForecastData data => setForecastData data u
  | ECallError _ => setWeatherLoading false u
  | _ => u
  end.

(** [handleFetchWeatherData(cityName)], with the scale and the language of
    the form, to the point where the promise and its [finally] have settled. *)
Definition handleFetchWeatherData (w : world) (f : Settings.form)
    (cityName : jsstring) (u : ui) (s : state) : ui * state :=
  let s' :=
    (WeatherService.fetchWeatherData w
       {| WeatherService.cityName := cityName;
          WeatherService.scale := Settings.scale f;
          WeatherService.language := Settings.language f;
          WeatherService.has_onWeatherData := true;
          WeatherService.has_onForecastData := true;
          WeatherService.has_onError' := true |} s).2 in
  (setWeatherLoading false
     (fold_left weather_callback (added s s') (setWeatherLoading true u)), s').

(** The effect on [scale] and [language]. *)
Definition on_scale_or_language (w : world) (f : Settings.form) (u : ui) (s : state)
  : ui * state :=
  if negb (length (selectedCity u) =? 0)%nat
  then handleFetchWeatherData w f (selectedCity u) u s
  else (u, s).

(** What the location field shows besides the input. *)
Definition loading_indicator (u : ui) : bool := searchLoading u.

Definition no_locations_found (u : ui) : bool :=
  showPredictions u && length_is_zero (predictions u) &&
  (2 <=? length (locationInput u))%nat && negb (searchLoading u).

End SettingsForm.

(** The message [handleSave] shows for what it caught. *)
Definition shown_message (err : js_exn) : string :=
  match err with
  | ErrorObj _ message => message
  | ThrownValue _ => "Unknown error"
  end.

Module SaveHosts.

(** A store that accepts [viewConfig] and answers [false] to every other
    write. *)
Definition later_writes_refused : world :=
  Examples.with_store Examples.online (fun _ k _ =>
    if String.eqb k "viewConfig" then SetTrue else SetFalse).

End SaveHosts.

(** ** views/utils/temperatureUtils.ts: the default configuration and the
    options of the theme selector *)

Module Constants.

Definition DEFAULT_CONFIG : Views.ViewConfig :=
  {| Views.selectedView := "flamingo" |}.

Record theme_option : Type := { value : string; label : string }.

Definition THEME_OPTIONS : list theme_option :=
  [ {| value := "flamingo"; label := "Flamingo" |};
    {| value := "sky"; label := "Sky" |};
    {| value := "urban"; label := "Urban" |};
    {| value := "watermelon"; label := "Watermelon" |};
    {| value := "neapolitan"; label := "Neapolitan" |};
    {| value := "meadow"; label := "Meadow" |};
    {| value := "forest"; label := "Forest" |} ].

End Constants.

(** ** views/components/DayForecast.tsx and the rest of views/WeatherCard.tsx *)

Module Card.

Record ColorTheme : Type := {
  leftBg : string;
  todayBg : string;
  forecastBg : string;
  accent : string
}.

Definition THEMES : list (string * ColorTheme) :=
  [ ("flamingo", {| leftBg := "#2f2f2f"; todayBg := "#3a3a3a";
                    forecastBg := "#a01650"; accent := "#b03060" |});
    ("sky", {| leftBg := "#0D47A1"; todayBg := "#1565C0";
               forecastBg := "#42A5F5"; accent := "#90CAF9" |});
    ("urban", {| leftBg := "#B71C1C"; todayBg := "#C62828";
                 forecastBg := "#9FA8DA"; accent := "#EF9A9A" |});
    ("watermelon", {| leftBg := "#00600F"; todayBg := "#2E7D32";
                      forecastBg := "#EF5350"; accent := "#A5D6A7" |});
    ("neapolitan", {| leftBg := "#795548"; todayBg := "#A98274";
                      forecastBg := "#FF8A80"; accent := "#FFCCBC" |});
    ("meadow", {| leftBg := "#7CB342"; todayBg := "#8BC34A";
                  forecastBg := "#FBC02D"; accent := "#DCEDC8" |});
    ("forest", {| leftBg := "#6D4C41"; todayBg := "#9C786C";
                  forecastBg := "#8BC34A"; accent := "#D7CCC8" |}) ].

(** What stands where an icon is shown: the result of [getWeatherIcon]. *)
Definition shown_icon : Type := lookup_result icon.

Record Main : Type := { temp : Q; temp_max : Q; temp_min : Q }.

Record WeatherData : Type := {
  name : string;
  main : Main;
  weather : list WeatherCard.Condition
}.

Record ScaleSettings : Type := { scale_value : string }.

(** The fields of [dateTimeSettings] the card reads. *)
Record DateTimeSettings : Type := {
  option' : string;
  formattedDate : string;
  formattedTime : string
}.

(** The React state of the card; [forecastWeather] is [forecast.list]. *)
Record card : Type := {
  currentWeather : option WeatherData;
  forecastWeather : option (list WeatherCard.Sample);
  dailyForecasts : list WeatherCard.DailyForecast;
  dateTimeSettings : DateTimeSettings;
  scale : string
}.

(** The initial values given to [useState]. *)
Definition initial_card : card :=
  {| currentWeather := None; forecastWeather := None; dailyForecasts := [];
     dateTimeSettings := {| option' := "Default"; formattedDate := "";
                            formattedTime := "" |};
     scale := "Celsius" |}.

(** The calls of the five state setters. *)
Inductive update : Type :=
| setCurrentWeather (v : option WeatherData)
| setForecastWeather (v : option (list WeatherCard.Sample))
| setDailyForecasts (v : list WeatherCard.DailyForecast)
| setDateTimeSettings (v : DateTimeSettings)
| setScale (v : string).

Definition apply_update (c : card) (u : update) : card :=
  match u with
  | setCurrentWeather v =>
      {| currentWeather := v; forecastWeather := forecastWeather c;
         dailyForecasts := dailyForecasts c;
         dateTimeSettings := dateTimeSettings c; scale := scale c |}
  | setForecastWeather v =>
      {| currentWeather := currentWeather c; forecastWeather := v;
         dailyForecasts := dailyForecasts c;
         dateTimeSettings := dateTimeSettings c; scale := scale c |}
  | setDailyForecasts v =>
      {| currentWeather := currentWeather c;
         forecastWeather := forecastWeather c; dailyForecasts := v;
         dateTimeSettings := dateTimeSettings c; scale := scale c |}
  | setDateTimeSettings v =>
      {| currentWeather := currentWeather c;
         forecastWeather := forecastWeather c;
         dailyForecasts := dailyForecasts c; dateTimeSettings := v;
         scale := scale c |}
  | setScale v =>
      {| currentWeather := currentWeather c;
         forecastWeather := forecastWeather c;
         dailyForecasts := dailyForecasts c;
         dateTimeSettings := dateTimeSettings c; scale := v |}
  end.

(** The state after the setter calls [updates], from the first render on. *)
Definition card_after (updates : list update) : card :=
  fold_left apply_update updates initial_card.

(** What the four reads of [loadInitialData] resolved to ([None] for null). *)
Record stored : Type := {
  stored_weather : option WeatherData;
  stored_forecast : option (list WeatherCard.Sample);
  stored_settings : option DateTimeSettings;
  stored_scale : option ScaleSettings
}.

(** What a subscription hands to its handler. *)
Inductive notification : Type :=
| CurrentWeatherUpdated (data : option WeatherData)
| ForecastWeatherUpdated (data : option (list WeatherCard.Sample))
| ScaleSettingsUpdated (data : option ScaleSettings)
| DateTimeSettingsUpdated (data : option DateTimeSettings).

(** [scaleData && scaleData.scale] *)
Definition usable_scale (data : option ScaleSettings) : option string :=
  match data with
  | Some d => if String.eqb (scale_value d) "" then None else Some (scale_value d)
  | None => None
  end.

(** The four subscription handlers: the setter calls each makes. *)
Definition handler (n : notification) : list update :=
  match n with
  | CurrentWeatherUpdated data => [setCurrentWeather data]
  | ForecastWeatherUpdated data => [setForecastWeather data]
  | ScaleSettingsUpdated data =>
      match usable_scale data with
      | Some v => [setScale v]
      | None => []
      end
  | DateTimeSettingsUpdated data =>
      match data with
      | Some v => [setDateTimeSettings v]
      | None => []
      end
  end.

(** The ways two sequences of calls can fall in time: [loadInitialData]
    awaits between its calls and the handlers run in between. *)
Inductive interleaving {A : Type} : list A -> list A -> list A -> Prop :=
| interleaving_nil : interleaving [] [] []
| interleaving_left (a : A) (l1 l2 l : list A) :
    interleaving l1 l2 l -> interleaving (a :: l1) l2 (a :: l)
| interleaving_right (a : A) (l1 l2 l : list A) :
    interleaving l1 l2 l -> interleaving l1 (a :: l2) (a :: l).

Section Card.

Variable weekday : Z -> string.
Variable large_notation : Z -> string.

(** How the host prints a finite number that is not an integer. *)
Variable fraction_notation : Q -> string.

(** The setter calls of [loadInitialData], the four reads given.  When the
    aggregation throws the promise rejects before the last call. *)
Definition loadInitialData (r : stored) : list update :=
  [setCurrentWeather (stored_weather r); setForecastWeather (stored_forecast r)]
  ++ match stored_settings r with
     | Some v => [setDateTimeSettings v]
     | None => []
     end
  ++ match usable_scale (stored_scale r) with
     | Some v => [setScale v]
     | None => []
     end
  ++ match stored_forecast r with
     | Some forecast_list =>
         match WeatherCard.dailyForecasts weekday forecast_list with
         | Returned days => [setDailyForecasts days]
         | Thrown _ => []
         end
     | None => []
     end.

(** The setter calls over the life of a mounted card: those of the load
    and those of the handlers of [ns], in one of their orders. *)
Definition life (r : stored) (ns : list notification) (updates : list update) : Prop :=
  interleaving (loadInitialData r) (concat (handler <$> ns)) updates.

(** A number inside a template literal. *)
Definition number_text (x : jsnum) : string :=
  match x with
  | NegInfinity => "-Infinity"
  | PosInfinity => "Infinity"
  | Finite q =>
      if Qeq_bool q (inject_Z (Qfloor q))
      then number_to_string large_notation (Qfloor q)
      else fraction_notation q
  end.

(** The [hi] and [lo] of [DayForecastProps]: [number | string]. *)
Inductive temperature : Type :=
| Number (x : jsnum)
| Text (s : string).

Record DayForecastProps : Type := {
  day : string;
  icon : shown_icon;
  hi : temperature;
  lo : temperature;
  scale' : string
}.

Definition formatTemp (scale : string) (temp : temperature) : string :=
  match temp with
  | Number x =>
      number_text x +:+ "°" +:+ (if String.eqb scale "Fahrenheit" then "F" else "C")
  | Text s => s
  end.

(** What [DayForecast] shows. *)
Record day_column : Type := {
  column_label : string;
  column_icon : shown_icon;
  column_hi : string;
  column_lo : string
}.

Definition DayForecast (p : DayForecastProps) : day_column :=
  {| column_label := day p; column_icon := icon p;
     column_hi := formatTemp (scale' p) (hi p);
     column_lo := formatTemp (scale' p) (lo p) |}.

(** The columns shown while there are no daily forecasts. *)
Definition placeholders (scale : string) : list DayForecastProps :=
  [ {| day := "Sunday"; icon := Own WiCloudy; hi := Text "--"; lo := Text "--";
       scale' := scale |};
    {| day := "Monday"; icon := Own WiSnow; hi := Text "--"; lo := Text "--";
       scale' := scale |};
    {| day := "Tuesday"; icon := Own WiDaySunny; hi := Text "--"; lo := Text "--";
       scale' := scale |};
    {| day := "Wednesday"; icon := Own WiDaySunny; hi := Text "--"; lo := Text "--";
       scale' := scale |} ].

(** The forecast strip. *)
Definition forecast_row (c : card) : list day_column :=
  if (0 <? length (dailyForecasts c))%nat then
    (λ d, DayForecast {| day := WeatherCard.day d; icon := WeatherCard.day_icon d;
                         hi := Number (WeatherCard.hi d);
                         lo := Number (WeatherCard.lo d); scale' := scale c |})
      <$> dailyForecasts c
  else DayForecast <$> placeholders (scale c).

(** What the card shows, styles and class names apart from the colours. *)
Record card_view : Type := {
  colors : lookup_result ColorTheme;
  city : string;
  datetime : option (string * string);
  current_temp : string;
  current_icon : shown_icon;
  today_icon : shown_icon;
  today_hi : string;
  today_lo : string;
  forecast : list day_column
}.

(** [getWeatherIcon(currentWeather.weather[0].main)] *)
Definition condition_icon (w : WeatherData) : outcome (shown_icon) :=
  match weather w with
  | [] => Thrown (TypeError "Cannot read properties of undefined: main")
  | c :: _ => Returned (getWeatherIcon (WeatherCard.main c))
  end.

(** The card for the theme [theme]. *)
Definition WeatherCard (theme : string) (c : card) : outcome card_view :=
  match object_lookup THEMES theme with
  | Undefined => Thrown (TypeError "Cannot read properties of undefined: leftBg")
  | colors =>
      WeatherCard.obind
        (match currentWeather c with
         | Some w => condition_icon w
         | None => Returned (Own WiDaySunny)
         end)
        (λ current_icon,
           WeatherCard.obind
             (match currentWeather c with
              | Some w => condition_icon w
              | None => Returned (Own WiCloudy)
              end)
             (λ today_icon,
                Returned
                  {| colors := colors;
                     city := match currentWeather c with
                             | Some w =>
                                 if String.eqb (name w) "" then "Loading..."
                                 else name w
                             | None => "Loading..."
                             end;
                     datetime :=
                       if String.eqb (option' (dateTimeSettings c)) "Do Not Show"
                       then None
                       else Some (formattedTime (dateTimeSettings c),
                                  formattedDate (dateTimeSettings c));
                     current_temp :=
                       formatTemperature large_notation
                         (Num ∘ Finite ∘ temp ∘ main <$> currentWeather c) (scale c);
                     current_icon := current_icon;
                     today_icon := today_icon;
                     today_hi :=
                       formatTemperature large_notation
                         (Num ∘ Finite ∘ temp_max ∘ main <$> currentWeather c) (scale c);
                     today_lo :=
                       formatTemperature large_notation
                         (Num ∘ Finite ∘ temp_min ∘ main <$> currentWeather c) (scale c);
                     forecast := forecast_row c |}))
  end.

End Card.

End Card.

(** ** What makes the daily aggregation throw *)

Module DailyOutcome.
Import WeatherCard DailySpec.

(** Some sample has a time no [Date] can hold. *)
Definition unreadable (items : list Sample) : Prop :=
  ∃ item, item ∈ items ∧ valid_time (dt item * 1000) = false.

(** The first sample of one of the days summarized has no condition. *)
Definition undescribed (items : list Sample) : Prop :=
  ∃ d first rest,
    d ∈ take 4 (drop 1 (encounter_days items)) ∧
    samples_of_day d items = first :: rest ∧
    weather first = [].

End DailyOutcome.

(** ** The Render view of the application template *)

Module Template.

Definition Qlt_bool (x y : Q) : bool := negb (Qle_bool y x).

(** What [Render] shows: the title, the subtitle line, the two lines of
    documentation and the documentation button. *)
Record view : Type := {
  hero_title : bool;
  hero_subtitle : string;
  docs_information : bool;
  docs_button : bool
}.

(** The doubles written [1.2] and [1.35]. *)
Definition double_1_2 : Q := 5404319552844595 # 4503599627370496.
Definition double_1_35 : Q := 3039929748475085 # 2251799813685248.

(** [uiScale] is the value of a finite double. *)
Definition Render (uiScale : Q) (isLoading : bool) (subtitle : string) : view :=
  {| hero_title := Qlt_bool uiScale (3 # 2);
     hero_subtitle := if isLoading then "Loading..." else subtitle;
     docs_information := Qlt_bool uiScale double_1_2;
     docs_button := Qlt_bool uiScale double_1_35 |}.

End Template.

(** ** A card to run *)

Module CardExamples.

(** The store at the load: a forecast over three days, no current weather
    yet, the scale set to Fahrenheit. *)
Definition three_days_stored : Card.stored :=
  {| Card.stored_weather := None;
     Card.stored_forecast := Some Examples.three_days;
     Card.stored_settings := None;
     Card.stored_scale := Some {| Card.scale_value := "Fahrenheit" |} |}.

(** An empty forecast arrives while the load is under way. *)
Definition forecast_arrives : list Card.notification :=
  [Card.ForecastWeatherUpdated (Some [])].

Definition monday (ms : Z) : string := "Monday".

Definition no_notation {A} (x : A) : string := "".

(** The setter calls, the notification falling after the second read. *)
Definition three_days_updates : list Card.update :=
  match Card.loadInitialData monday three_days_stored with
  | first :: second :: rest =>
      first :: second :: Card.setForecastWeather (Some []) :: rest
  | short => short
  end.

End CardExamples.

(** ** What a run of the worker may touch *)

(** From [s] to [s'] by the events [evs]: nothing but requests, console
    output, the timer and writes to the device store under [keys]. *)
Definition device_only (keys : list string) (s : state) (evs : list event)
    (s' : state) : Prop :=
  trace s' = trace s ++ evs ∧
  instance s' = instance s ∧
  loading s' = loading s ∧
  error s' = error s ∧
  writes Instance evs = [] ∧
  (∀ k v, (k, v) ∈ writes Device evs → k ∈ keys) ∧
  (∀ k, k ∉ keys → device s' !! k = device s !! k) ∧
  (length (writes Device evs) ≤ length (requests evs))%nat.

Module WorkerHosts.

(** The answer of the weather service to a request without coordinates. *)
Definition wrong_latitude : jsval :=
  JObj [("cod", JStr "400"); ("message", JStr "wrong latitude")].

(** Every request is answered with status 400 and that body. *)
Definition refusing : world :=
  Examples.with_proxy Examples.online (fun _ =>
    Resolved {| ok := false; status := 400; body := Some wrong_latitude |}).

End WorkerHosts.

(** * Properties *)

(** ** Running the monad *)

Ltac run :=
  unfold try_catch, finally, bind, fetch, json, set, write, call, call_error,
    console_error, emit, lift, throw, ret, after;
  cbn.

Ltac tidy := rewrite <- ?app_assoc; cbn.

Ltac same_lhs :=
  repeat match goal with
         | H : ?a = _, H' : ?a = _ |- _ => rewrite H in H'
         end.

Ltac settle :=
  intros; simplify_eq/=; same_lhs; simplify_eq/=; try done; try congruence.


Lemma is_str_true (v : jsval) (literal : string) :
  is_str v literal = true → v = JStr literal.
Proof.
  destruct v; simpl; try discriminate.
  intros H. apply String.eqb_eq in H. by subst.
Qed.

(** ** fetchPlacePredictions *)

Module WeatherServiceFacts.
Import WeatherService.

Lemma short_input_test (i : jsstring) :
  ((length i =? 0)%nat || (length i <? 2)%nat) = bool_decide (length i < 2)%nat.
Proof.
  destruct (Nat.ltb_spec (length i) 2), (Nat.eqb_spec (length i) 0);
    case_bool_decide; simpl; try reflexivity; lia.
Qed.

(** C6.  An input of fewer than two code units (the empty string included)
    makes [fetchPlacePredictions] call [onSuccess] once, with the empty list,
    and return: no request is issued, nothing else is called or logged. *)
Theorem fetchPlacePredictions_short_input
    (w : world) (o : FetchPredictionsOptions) (s : state) :
  (length (input o) < 2)%nat →
  fetchPlacePredictions w o s = (Returned tt, after s [ECall onSuccess (JArr [])])
  ∧ requests (trace (fetchPlacePredictions w o s).2) = requests (trace s).
Proof.
  intros Hshort. unfold fetchPlacePredictions.
  rewrite short_input_test, bool_decide_eq_true_2 by exact Hshort.
  split; [reflexivity|].
  unfold requests; cbn. rewrite omap_app; cbn. by rewrite app_nil_r.
Qed.

Lemma fetchPlacePredictions_short_input_witness :
  fetchPlacePredictions Examples.online {| input := [65%N]; has_onError := true |}
    initial_state
  = (Returned tt, after initial_state [ECall onSuccess (JArr [])]).
Proof.
  apply (fetchPlacePredictions_short_input Examples.online
           {| input := [65%N]; has_onError := true |} initial_state).
  simpl. lia.
Defined.



(** C10.  Without a Places API key (none, or the empty string) an input of
    two code units or more only logs: [fetchPlacePredictions] returns with
    neither [onSuccess] nor [onError] called and no request issued.  With a
    key, every run calls [onSuccess] once, and with the empty list unless the
    response is a 2xx one of status "OK" carrying predictions. *)
Theorem fetchPlacePredictions_without_key
    (w : world) (o : FetchPredictionsOptions) (s : state) :
  (2 ≤ length (input o))%nat →
  configured (VITE_GOOGLE_PLACES_API_KEY w) = None →
  (∃ evs,
     fetchPlacePredictions w o s = (Returned tt, after s evs) ∧
     evs = [EConsoleError "Google Places API key not configured"] ∧
     calls onSuccess evs = [] ∧ error_calls evs = [] ∧ requests evs = []) ∧
  (∀ (w' : world) (s' : state) (apiKey : string),
     configured (VITE_GOOGLE_PLACES_API_KEY w') = Some apiKey →
     ∃ evs v,
       fetchPlacePredictions w' o s' = (Returned tt, after s' evs) ∧
       calls onSuccess evs = [v] ∧
       (v = JArr [] ∨
        ∃ r data,
          proxy_fetch w' (PlacesAutocomplete (input o) apiKey) = Resolved r ∧
          ok r = true ∧ body r = Some data ∧
          member data "status" = Returned (JStr "OK") ∧
          member data "predictions" = Returned v ∧ truthy v = true)).
Proof.
  intros Hlong Hkey. split.
  - unfold fetchPlacePredictions.
    rewrite short_input_test, bool_decide_eq_false_2 by lia.
    unfold try_catch. rewrite Hkey. run.
    eexists. split; [reflexivity|]. by cbn.
  - intros w' s' apiKey Hkey'.
    unfold fetchPlacePredictions.
    rewrite short_input_test, bool_decide_eq_false_2 by lia.
    unfold try_catch, bind at 1. rewrite Hkey'.
    unfold encodeURIComponent, lift, bind at 1.
    destruct (well_formed_utf16 (input o)) eqn:Hwf; cbn.
    2:{ destruct (has_onError o);
          run; tidy; do 2 eexists; (split; [reflexivity|]); cbn; eauto. }
    unfold fetch, bind, emit. cbn.
    destruct (proxy_fetch w' _) as [[ok st body]|e] eqn:Hfetch; cbn.
    + destruct ok; cbn.
      * destruct body as [data|]; cbn.
        -- destruct (member data "status") as [dst|e1] eqn:Hst; cbn.
           ++ destruct (member data "predictions") as [p|e2] eqn:Hp; cbn.
              ** destruct (is_str dst "OK" && truthy p) eqn:Hok.
                 --- apply andb_true_iff in Hok as [Hok Htruthy].
                     apply is_str_true in Hok. subst dst.
                     run; tidy. do 2 eexists. split; [reflexivity|].
                     split; [reflexivity|]. right. eauto 10.
                 --- destruct (is_str dst "ZERO_RESULTS");
                       run; tidy; do 2 eexists; (split; [reflexivity|]); cbn; eauto.
              ** destruct data; discriminate.
           ++ destruct (has_onError o);
                run; tidy; do 2 eexists; (split; [reflexivity|]); cbn; eauto.
        -- destruct (has_onError o);
             run; tidy; do 2 eexists; (split; [reflexivity|]); cbn; eauto.
      * destruct (has_onError o);
          run; tidy; do 2 eexists; (split; [reflexivity|]); cbn; eauto.
    + destruct (has_onError o);
        run; tidy; do 2 eexists; (split; [reflexivity|]); cbn; eauto.
Qed.

Lemma fetchPlacePredictions_without_key_witness :
  ∃ evs,
    fetchPlacePredictions Examples.without_places_key
      {| input := Examples.typed_As; has_onError := true |} initial_state
    = (Returned tt, after initial_state evs) ∧
    calls onSuccess evs = [] ∧ error_calls evs = [].
Proof.
  destruct (fetchPlacePredictions_without_key Examples.without_places_key
              {| input := Examples.typed_As; has_onError := true |}
              initial_state)
    as [(evs & Hrun & _ & Hsuccess & Herror & _) _].
  - simpl. lia.
  - reflexivity.
  - exists evs. auto.
Defined.

(** ** fetchWeatherData *)

(** C4.  When the geocoder answers with the empty list, [fetchWeatherData]
    hands null to [onWeatherData] and to [onForecastData], the error
    "Location not found" to [onError], and returns; the geocoding request
    is the only request it issues and nothing is stored. *)
Theorem fetchWeatherData_location_not_found
    (w : world) (o : FetchWeatherDataOptions) (s : state)
    (apiKey : string) (r : response) :
  configured (VITE_OPENWEATHER_API_KEY w) = Some apiKey →
  well_formed_utf16 (cityName o) = true →
  proxy_fetch w (GeoDirect (cityName o) apiKey) = Resolved r →
  ok r = true →
  body r = Some (JArr []) →
  let evs := EFetch (GeoDirect (cityName o) apiKey)
             :: caught o (Error "Location not found") in
  fetchWeatherData w o s = (Returned tt, after s evs) ∧
  requests evs = [GeoDirect (cityName o) apiKey] ∧
  (has_onWeatherData o = true → calls onWeatherData evs = [JNull]) ∧
  (has_onForecastData o = true → calls onForecastData evs = [JNull]) ∧
  (has_onError' o = true → error_calls evs = [Error "Location not found"]).
Proof.
  intros Hkey Hwf Hgeo Hok Hbody evs. subst evs.
  unfold fetchWeatherData, caught.
  unfold try_catch, bind at 1. rewrite Hkey.
  unfold encodeURIComponent. rewrite Hwf.
  unfold fetch, lift, bind, emit. cbn. rewrite Hgeo. cbn.
  rewrite Hok. cbn. unfold json. rewrite Hbody. cbn.
  destruct (has_onWeatherData o), (has_onForecastData o), (has_onError' o);
    run; tidy; repeat split; done.
Qed.

Lemma fetchWeatherData_location_not_found_witness :
  calls onWeatherData
    (trace (fetchWeatherData Examples.nowhere Examples.astana_options initial_state).2)
  = [JNull].
Proof.
  destruct (fetchWeatherData_location_not_found Examples.nowhere
              Examples.astana_options initial_state "weather-key"
              {| ok := true; status := 200; body := Some (JArr []) |}
              eq_refl eq_refl eq_refl eq_refl eq_refl)
    as (Hrun & _ & Hweather & _).
  rewrite Hrun. exact (Hweather eq_refl).
Defined.




End WeatherServiceFacts.

(** ** Render *)

Module ViewsFacts.
Import Views.

Lemma own_lookup_None {A} (table : list (string * A)) (k : string) :
  k ∉ table.*1 → own_lookup table k = None.
Proof.
  induction table as [|[k' a] rest IH]; intros Hk; [reflexivity|].
  cbn in *. apply not_elem_of_cons in Hk as [Hne Hrest].
  destruct (String.eqb_spec k' k); [congruence|]. by apply IH.
Qed.

Lemma not_prototype_member (k : string) :
  k ∉ object_prototype_members →
  existsb (String.eqb k) object_prototype_members = false.
Proof.
  intros Hk. apply not_true_is_false. intros Hex.
  apply existsb_exists in Hex as (m & Hin & Heq).
  apply String.eqb_eq in Heq. subst m.
  apply Hk. by apply list_elem_of_In.
Qed.

(** C2, as the code has it.  An absent configuration renders the "please
    configure" placeholder and a theme id among the seven keys of the
    registry renders the component registered under it.  A theme id outside
    the registry gets no placeholder: what the lookup yields becomes the type
    of the element, and for an id that no object inherits either that type
    is [undefined], on which React throws. *)
Theorem Render_registry_or_placeholder (config : option ViewConfig) :
  (config = None → Render config = Div "Please configure the app in Settings") ∧
  (∀ c t, config = Some c → (selectedView c, t) ∈ VIEW_REGISTRY →
          Render config = Element (Own t) ∧ crashes (Render config) = false) ∧
  (∀ c, config = Some c → selectedView c ∉ VIEW_REGISTRY.*1 →
        (∀ text, Render config ≠ Div text) ∧
        (selectedView c ∉ object_prototype_members →
         Render config = Element Undefined ∧ crashes (Render config) = true)).
Proof.
  split; [by intros ->|]. split.
  - intros [k] t -> Hin. cbn in Hin.
    unfold VIEW_REGISTRY in Hin.
    repeat (apply elem_of_cons in Hin as [Hin|Hin]; [by simplify_eq|]).
    by apply elem_of_nil in Hin.
  - intros [k] -> Hout. cbn in *. split; [done|].
    intros Hproto. unfold object_lookup.
    rewrite own_lookup_None, not_prototype_member by done. done.
Qed.

Lemma Render_registry_or_placeholder_witness :
  Render (Some {| selectedView := "sky" |}) = Element (Own Sky).
Proof.
  destruct (Render_registry_or_placeholder (Some {| selectedView := "sky" |}))
    as (_ & Hknown & _).
  apply (Hknown {| selectedView := "sky" |} Sky eq_refl).
  cbn. unfold VIEW_REGISTRY. apply elem_of_cons. right. apply elem_of_cons. by left.
Defined.

(** C2, as the claim states it, fails: for the theme id "retro", which is
    not a key of the registry, [Render] returns no placeholder but an element
    of type [undefined]. *)
Lemma Render_unknown_theme_crashes :
  Render (Some {| selectedView := "retro" |}) = Element Undefined ∧
  Render (Some {| selectedView := "retro" |})
    ≠ Div "Please configure the app in Settings" ∧
  crashes (Render (Some {| selectedView := "retro" |})) = true.
Proof. repeat split. discriminate. Qed.

End ViewsFacts.

(** ** formatTemperature *)

Module TemperatureFacts.

Lemma Math_round_nearest (t : Q) :
  (inject_Z (Math_round t) - (1 # 2) <= t < inject_Z (Math_round t) + (1 # 2))%Q.
Proof.
  unfold Math_round.
  pose proof (Qfloor_le (t + (1 # 2))) as Hle.
  pose proof (Qlt_floor (t + (1 # 2))) as Hlt.
  rewrite inject_Z_plus in Hlt.
  change (inject_Z 1) with 1%Q in Hlt.
  split; lra.
Qed.

(** C8.  For a missing temperature [formatTemperature] returns "--°F" when
    the scale is "Fahrenheit" and "--°C" for any other scale; for a finite
    temperature [t] it returns the integer nearest to [t] (a tie going up)
    as a template literal prints it, with all its digits up to [2^53] in
    magnitude, followed by "°F" or "°C" by the same rule; NaN and the
    infinities, which [Math.round] leaves as they are, are printed by name
    before the same unit.  In particular [formatTemperature(null, "Celsius")]
    is "--°C" and [formatTemperature(21.6, "Fahrenheit")] is "22°F". *)
Theorem formatTemperature_spec
    (large_notation : Z → string) (temp : option number) (scale : string) :
  let unit := if decide (scale = "Fahrenheit") then "F" else "C" in
  (temp = None → formatTemperature large_notation temp scale = "--°" +:+ unit) ∧
  (∀ t, temp = Some (Num (Finite t)) →
     ∃ n : Z,
       (inject_Z n - (1 # 2) <= t < inject_Z n + (1 # 2))%Q ∧
       formatTemperature large_notation temp scale
       = number_to_string large_notation n +:+ "°" +:+ unit ∧
       ((Z.abs n ≤ 2 ^ 53)%Z → number_to_string large_notation n = decimal n)) ∧
  (temp = Some NaN →
   formatTemperature large_notation temp scale = "NaN°" +:+ unit) ∧
  (temp = Some (Num PosInfinity) →
   formatTemperature large_notation temp scale = "Infinity°" +:+ unit) ∧
  (temp = Some (Num NegInfinity) →
   formatTemperature large_notation temp scale = "-Infinity°" +:+ unit) ∧
  formatTemperature large_notation None "Celsius" = "--°C" ∧
  formatTemperature large_notation (Some (Num (Finite (216 # 10)))) "Fahrenheit"
  = "22°F".
Proof.
  intros unit. subst unit.
  assert (Hunit : (if String.eqb scale "Fahrenheit" then "F" else "C")
                  = (if decide (scale = "Fahrenheit") then "F" else "C")).
  { destruct (String.eqb_spec scale "Fahrenheit"), (decide (scale = "Fahrenheit"));
      done. }
  split; [|split; [|split; [|split; [|split; [|split; reflexivity]]]]].
  - intros ->. cbn. by rewrite Hunit.
  - intros t ->. exists (Math_round t). split; [apply Math_round_nearest|].
    split; [cbn; by rewrite Hunit|].
    intros Hsmall. unfold number_to_string.
    destruct (Z.leb_spec (Z.abs (Math_round t)) (2 ^ 53)); [done|lia].
  - intros ->. cbn. by rewrite Hunit.
  - intros ->. cbn. by rewrite Hunit.
  - intros ->. cbn. by rewrite Hunit.
Qed.

Lemma formatTemperature_spec_witness :
  formatTemperature (fun _ => "") None "Kelvin" = "--°C".
Proof.
  exact (proj1 (formatTemperature_spec (fun _ => "") None "Kelvin") eq_refl).
Defined.

End TemperatureFacts.

(** ** The weather worker *)

Module WorkerFacts.
Import Worker.

Lemma requests_app (t1 t2 : list event) :
  requests (t1 ++ t2) = requests t1 ++ requests t2.
Proof. apply omap_app. Qed.

(** One poll: a single request, a write to the device store under [key] at
    most, and no exception whatever the host does. *)
Lemma getCurrentWeather_run (w : world) (s : state) :
  ∃ evs s',
    getCurrentWeather w s = (Returned tt, s') ∧
    trace s' = trace s ++ evs ∧
    requests evs = [WorkerCurrentWeather] ∧
    (∀ k v, (k, v) ∈ writes Device evs → k = "currentWeather") ∧
    device s' !! "weatherForecast" = device s !! "weatherForecast".
Proof.
  unfold getCurrentWeather. run.
  destruct (proxy_fetch w WorkerCurrentWeather) as [[ok st [data|]]|e]; cbn;
    try destruct (store_set w Device "currentWeather" data); cbn; tidy;
    do 2 eexists; (split; [reflexivity|]); cbn;
    (split; [reflexivity|]); (split; [reflexivity|]);
    (split; [|by rewrite ?lookup_insert_ne]); intros k v Hin;
    repeat (apply elem_of_cons in Hin as [Hin|Hin]; [by simplify_eq|]);
    by apply elem_of_nil in Hin.
Qed.

Lemma getForecast_run (w : world) (s : state) :
  ∃ evs s',
    getForecast w s = (Returned tt, s') ∧
    trace s' = trace s ++ evs ∧
    requests evs = [WorkerForecast] ∧
    (∀ k v, (k, v) ∈ writes Device evs → k = "weatherForecast").
Proof.
  unfold getForecast. run.
  destruct (proxy_fetch w WorkerForecast) as [[ok st [data|]]|e]; cbn;
    try destruct (store_set w Device "weatherForecast" data); cbn; tidy;
    do 2 eexists; (split; [reflexivity|]); cbn;
    (split; [reflexivity|]); (split; [reflexivity|]);
    intros k v Hin;
    repeat (apply elem_of_cons in Hin as [Hin|Hin]; [by simplify_eq|]);
    by apply elem_of_nil in Hin.
Qed.

Lemma ticks_run (hosts : list world) (s : state) :
  ∃ evs s',
    ticks hosts s = (Returned tt, s') ∧
    trace s' = trace s ++ evs ∧
    requests evs = replicate (length hosts) WorkerCurrentWeather ∧
    (∀ k v, (k, v) ∈ writes Device evs → k = "currentWeather") ∧
    device s' !! "weatherForecast" = device s !! "weatherForecast".
Proof.
  revert s. induction hosts as [|w later IH]; intros s.
  - exists [], s. cbn. rewrite app_nil_r. repeat split; try done.
    intros k v Hin. by apply elem_of_nil in Hin.
  - cbn [ticks]. unfold interval_callback, bind.
    destruct (getCurrentWeather_run w s) as (evs1 & s1 & -> & Ht1 & Hr1 & Hw1 & Hd1).
    destruct (IH s1) as (evs2 & s2 & -> & Ht2 & Hr2 & Hw2 & Hd2).
    exists (evs1 ++ evs2), s2. split; [reflexivity|].
    split; [by rewrite Ht2, Ht1, app_assoc|].
    split; [by rewrite requests_app, Hr1, Hr2|].
    split; [|by rewrite Hd2, Hd1].
    intros k v Hin. unfold writes in Hin. rewrite omap_app in Hin.
    apply elem_of_app in Hin as [Hin|Hin]; eauto.
Qed.

(** C5, what the code does.  The worker fetches the current conditions and
    then the forecast when it starts and arms a timer of 30 minutes; every
    tick of the timer requests the current conditions only.  Over a run
    with any number of ticks the forecast is requested once, at the start,
    and no tick writes [weatherForecast] to the device store. *)
Theorem worker_ticks_skip_forecast (w : world) (hosts : list world) (s : state) :
  ∃ evs s',
    run w hosts s = (Returned tt, s') ∧
    trace s' = trace s ++ evs ∧
    ESetInterval 1800000 ∈ evs ∧
    requests evs =
      [WorkerCurrentWeather; WorkerForecast] ++
      replicate (length hosts) WorkerCurrentWeather ∧
    device s' !! "weatherForecast"
    = device (openWeatherMapWorker w s).2 !! "weatherForecast".
Proof.
  unfold run, openWeatherMapWorker, bind.
  destruct (getCurrentWeather_run w s) as (evs1 & s1 & -> & Ht1 & Hr1 & _).
  destruct (getForecast_run w s1) as (evs2 & s2 & -> & Ht2 & Hr2 & _).
  cbn.
  destruct (ticks_run hosts (after s2 [ESetInterval 1800000]))
    as (evs3 & s3 & Hrun & Ht3 & Hr3 & _ & Hd3).
  unfold after in Hrun. unfold emit.
  change (30 * 60 * 1000) with 1800000. rewrite Hrun.
  exists (evs1 ++ evs2 ++ [ESetInterval 1800000] ++ evs3), s3.
  split; [reflexivity|].
  split; [rewrite Ht3; cbn; rewrite Ht2, Ht1; by rewrite <- !app_assoc|].
  split; [rewrite !elem_of_app, elem_of_cons; auto|].
  split; [|exact Hd3].
  rewrite !requests_app, Hr1, Hr2, Hr3. reflexivity.
Qed.

(** The run at the failing input: a start and one tick on a host that
    answers everything.  The tick requests the current conditions alone. *)
Example worker_first_tick :
  requests (trace (run Examples.online [Examples.online] initial_state).2)
  = [WorkerCurrentWeather; WorkerForecast; WorkerCurrentWeather].
Proof. reflexivity. Qed.

End WorkerFacts.

(** ** handleSave *)

Module SettingsFacts.
Import Settings.

Ltac split_cases :=
  repeat match goal with
         | |- context [store_set ?w ?sc ?k ?v] =>
             let H := fresh "Hset" in
             destruct (store_set w sc k v) eqn:H; cbn
         | |- context [String.eqb ?a ?b] =>
             destruct (String.eqb a b); cbn
         | |- context [format ?w ?p] =>
             let H := fresh "Hformat" in
             destruct (format w p) eqn:H; cbn
         end.

Ltac members Hin :=
  repeat (apply elem_of_cons in Hin as [Hin|Hin]; [simplify_eq|]);
  try (by apply elem_of_nil in Hin).

Ltac contradict_outcome :=
  match goal with
  | Hfail : failing_write _ _ _ |- _ =>
      unfold failing_write in Hfail;
      repeat match goal with
             | H : store_set _ _ _ _ = _ |- _ => rewrite H in Hfail
             end;
      done
  | Hnone : ∀ k v, ¬ failing_write _ k v, H : store_set ?w Instance ?k ?v = _ |- _ =>
      exfalso; apply (Hnone k v); unfold failing_write; by rewrite H
  | Hfmt : ∀ p e, format _ p ≠ Thrown e, H : format _ _ = Thrown _ |- _ =>
      exfalso; by apply Hfmt in H
  end.

(** C9.  [handleSave] attempts its writes in the order [viewConfig],
    [dateTimeSettings], [scaleSettings], [languageSettings] and stops at the
    first that fails (one that rejects, or [viewConfig] answered with
    [false]): a failing write is the last one attempted, every value the store
    accepted before it is still there afterwards, and the keys not reached
    hold what they held before.  The loading flag is false at the end of
    every run, and [handleSave] itself never throws.  When nothing fails all
    four keys are written. *)
Theorem handleSave_not_atomic (w : world) (f : form) (s : state) :
  ∃ evs s',
    handleSave w f s = (Returned tt, s') ∧
    trace s' = trace s ++ evs ∧
    loading s' = false ∧
    (∃ n, (writes Instance evs).*1 = take n save_order) ∧
    (∀ k v, (k, v) ∈ writes Instance evs →
            store_set w Instance k v = SetTrue → instance s' !! k = Some v) ∧
    (∀ k v, (k, v) ∈ writes Instance evs → failing_write w k v →
            ∃ earlier, writes Instance evs = earlier ++ [(k, v)]) ∧
    (∀ k, k ∉ (writes Instance evs).*1 → instance s' !! k = instance s !! k) ∧
    ((∀ k v, ¬ failing_write w k v) → (∀ p e, format w p ≠ Thrown e) →
     (writes Instance evs).*1 = save_order).
Proof.
  unfold handleSave, formatted, setLoading, setError. run.
  split_cases; tidy.
  all: do 2 eexists; (split; [reflexivity|]); cbn.
  all: (split; [reflexivity|]); (split; [reflexivity|]).
  all: split;
    [ first [by exists 0%nat | by exists 1%nat | by exists 2%nat
            | by exists 3%nat | by exists 4%nat] | ].
  all: split;
    [intros k v Hin Hok; members Hin; first [congruence | by simplify_map_eq]|].
  all: split;
    [ intros k v Hin Hfail; members Hin; try contradict_outcome;
      first [by exists [] | by eexists [_] | by eexists [_; _]
            | by eexists [_; _; _]] | ].
  all: split;
    [ intros k Hk; cbn in Hk; rewrite !not_elem_of_cons in Hk;
      destruct_and!; by rewrite ?lookup_insert_ne by congruence | ].
  all: intros Hnone Hfmt; first [reflexivity | contradict_outcome].
Qed.

Lemma handleSave_not_atomic_witness :
  let s' := (handleSave Examples.scale_write_fails Examples.sky_form initial_state).2 in
  loading s' = false ∧
  instance s' !! "viewConfig" = Some (viewConfig_value Examples.sky_form) ∧
  instance s' !! "languageSettings" = None.
Proof.
  destruct (handleSave_not_atomic Examples.scale_write_fails Examples.sky_form
              initial_state)
    as (evs & s' & Hrun & Htrace & Hloading & _ & Hkept & _ & Hrest & _).
  cbn zeta. rewrite Hrun. cbn [snd].
  assert (Hevs : evs = trace s') by (by rewrite Htrace).
  assert (Hs' : s' = (handleSave Examples.scale_write_fails Examples.sky_form
                        initial_state).2) by (by rewrite Hrun).
  split; [exact Hloading|]. split.
  - apply Hkept; [|reflexivity].
    rewrite Hevs, Hs'. cbn. apply elem_of_cons. by left.
  - rewrite (Hrest "languageSettings"); [reflexivity|].
    rewrite Hevs, Hs'. cbn. rewrite !not_elem_of_cons.
    repeat split; try discriminate. apply not_elem_of_nil.
Defined.

End SettingsFacts.

(** ** The daily aggregation *)

Module WeatherCardFacts.
Import WeatherCard DailySpec.

(** *** The days in encounter order *)

Lemma elem_of_days_from (seen : list Z) (items : list Sample) (d : Z) :
  d ∈ days_from seen items ↔ d ∈ day_of <$> items ∧ d ∉ seen.
Proof.
  revert seen. induction items as [|item rest IH]; intros seen; cbn.
  - rewrite elem_of_nil. tauto.
  - case_bool_decide as Hseen.
    + rewrite IH, elem_of_cons. split; [tauto|].
      intros [[->|Hrest] Hnew]; tauto.
    + rewrite !elem_of_cons, IH, not_elem_of_cons.
      destruct (decide (d = day_of item)) as [->|Hne]; tauto.
Qed.

Lemma elem_of_encounter_days (items : list Sample) (d : Z) :
  d ∈ encounter_days items ↔ d ∈ day_of <$> items.
Proof.
  unfold encounter_days. rewrite elem_of_days_from, elem_of_nil. tauto.
Qed.

Lemma NoDup_days_from (seen : list Z) (items : list Sample) :
  NoDup (days_from seen items).
Proof.
  revert seen. induction items as [|item rest IH]; intros seen; cbn.
  - constructor.
  - case_bool_decide; [apply IH|].
    apply NoDup_cons. split; [|apply IH].
    rewrite elem_of_days_from, not_elem_of_cons. tauto.
Qed.

Lemma days_from_snoc (seen : list Z) (items : list Sample) (item : Sample) :
  days_from seen (items ++ [item])
  = days_from seen items ++
    (if bool_decide (day_of item ∈ seen ++ (day_of <$> items)) then []
     else [day_of item]).
Proof.
  revert seen. induction items as [|x rest IH]; intros seen; cbn.
  - rewrite app_nil_r. by case_bool_decide.
  - case_bool_decide as Hx.
    + rewrite IH. f_equal. apply (f_equal (λ b : bool, if b then [] else [_])).
      apply bool_decide_ext. rewrite !elem_of_app, elem_of_cons.
      split; [tauto|]. intros [?|[->|?]]; tauto.
    + rewrite IH. cbn. do 2 f_equal.
      apply (f_equal (λ b : bool, if b then [] else [_])).
      apply bool_decide_ext.
      repeat (rewrite elem_of_app || rewrite elem_of_cons). tauto.
Qed.

Lemma encounter_days_snoc (items : list Sample) (item : Sample) :
  encounter_days (items ++ [item])
  = encounter_days items ++
    (if bool_decide (day_of item ∈ encounter_days items) then []
     else [day_of item]).
Proof.
  unfold encounter_days. rewrite days_from_snoc. f_equal.
  apply (f_equal (λ b : bool, if b then [] else [_])).
  apply bool_decide_ext.
  by rewrite (elem_of_days_from [] items), elem_of_nil, app_nil_l; tauto.
Qed.

Lemma samples_of_day_snoc (d : Z) (items : list Sample) (item : Sample) :
  samples_of_day d (items ++ [item])
  = samples_of_day d items ++ (if decide (day_of item = d) then [item] else []).
Proof.
  unfold samples_of_day. by rewrite filter_app.
Qed.

Lemma samples_of_day_nil (d : Z) (items : list Sample) :
  samples_of_day d items = [] ↔ d ∉ day_of <$> items.
Proof.
  unfold samples_of_day. induction items as [|x rest IH].
  - cbn. rewrite elem_of_nil. tauto.
  - rewrite filter_cons, fmap_cons, not_elem_of_cons. case_decide.
    + split; [discriminate|]. intros [? _]. congruence.
    + rewrite IH. split; [|tauto]. intros ?. split; [congruence|done].
Qed.

(** *** The loop keeps [dailyData] equal to [groups_of] *)

Section Loop.

Variable weekday : Z → string.

Lemma has_key_fmap (g : Z → DayGroup) (keys : list Z) (d : Z) :
  has_key d ((λ k, (k, g k)) <$> keys) = bool_decide (d ∈ keys).
Proof.
  induction keys as [|k rest IH]; [reflexivity|].
  cbn. rewrite IH. destruct (Z.eqb_spec k d) as [->|Hne]; cbn.
  - symmetry. apply bool_decide_eq_true. apply elem_of_cons. by left.
  - apply bool_decide_ext. rewrite elem_of_cons. split; [tauto|].
    intros [->|?]; [done|tauto].
Qed.

Lemma push_temp_present (g g' : Z → DayGroup) (keys : list Z) (d : Z) (t : Q) :
  NoDup keys → d ∈ keys →
  g' d = pushed t (g d) →
  (∀ k, k ≠ d → g' k = g k) →
  push_temp d t ((λ k, (k, g k)) <$> keys) = (λ k, (k, g' k)) <$> keys.
Proof.
  intros Hnodup Hin Hd Hother.
  induction keys as [|k rest IH]; [by apply elem_of_nil in Hin|].
  apply NoDup_cons in Hnodup as [Hk Hrest]. cbn.
  destruct (Z.eqb_spec k d) as [->|Hne].
  - rewrite Hd. f_equal. apply list_fmap_ext. intros i k Hlook.
    rewrite Hother; [done|]. intros ->. apply Hk.
    by eapply list_elem_of_lookup_2.
  - rewrite Hother by done. f_equal. apply IH; [done|].
    apply elem_of_cons in Hin as [->|Hin]; done.
Qed.

Lemma push_temp_new (acc : list (Z * DayGroup)) (g : DayGroup) (d : Z) (t : Q) :
  has_key d acc = false →
  push_temp d t (acc ++ [(d, g)]) = acc ++ [(d, pushed t g)].
Proof.
  induction acc as [|[k gk] rest IH]; cbn.
  - by rewrite Z.eqb_refl.
  - intros [Hk Hrest]%orb_false_iff. rewrite Hk. by rewrite IH.
Qed.

Lemma group_of_snoc_same (items : list Sample) (item : Sample) :
  day_of item ∈ encounter_days items →
  group_of weekday (items ++ [item]) (day_of item)
  = pushed (temp item) (group_of weekday items (day_of item)).
Proof.
  intros Hmet. unfold group_of, pushed.
  rewrite samples_of_day_snoc, decide_True by done.
  destruct (samples_of_day (day_of item) items) as [|first group] eqn:Hgroup.
  - apply samples_of_day_nil in Hgroup.
    by apply elem_of_encounter_days in Hmet.
  - cbn. by rewrite fmap_app.
Qed.

Lemma group_of_snoc_other (items : list Sample) (item : Sample) (d : Z) :
  d ≠ day_of item →
  group_of weekday (items ++ [item]) d = group_of weekday items d.
Proof.
  intros Hne. unfold group_of.
  rewrite samples_of_day_snoc, decide_False by done.
  by rewrite app_nil_r.
Qed.

Lemma group_of_snoc_new (items : list Sample) (item : Sample) :
  day_of item ∉ encounter_days items →
  group_of weekday (items ++ [item]) (day_of item)
  = pushed (temp item)
      {| date := dt item * 1000; temps := [];
         day_weather := head (weather item);
         dayName := weekday (dt item * 1000) |}.
Proof.
  intros Hnew. unfold group_of, pushed.
  rewrite samples_of_day_snoc, decide_True by done.
  rewrite elem_of_encounter_days in Hnew.
  apply samples_of_day_nil in Hnew. by rewrite Hnew.
Qed.

(** One turn of the loop. *)
Lemma add_item_groups (items : list Sample) (item : Sample) :
  valid_time (dt item * 1000) = true →
  add_item weekday (groups_of weekday items) item
  = Returned (groups_of weekday (items ++ [item])).
Proof.
  intros Hvalid. unfold add_item. rewrite Hvalid. f_equal.
  fold (day_of item). unfold groups_of.
  rewrite has_key_fmap, encounter_days_snoc.
  case_bool_decide as Hmet.
  - rewrite app_nil_r. apply push_temp_present.
    + apply NoDup_days_from.
    + done.
    + by apply group_of_snoc_same.
    + intros k Hk. by apply group_of_snoc_other.
  - rewrite fmap_app. cbn.
    rewrite push_temp_new
      by (rewrite has_key_fmap; by apply bool_decide_eq_false).
    rewrite group_of_snoc_new by done. f_equal.
    apply list_fmap_ext. intros i k Hlook.
    rewrite group_of_snoc_other; [done|].
    intros ->. apply Hmet. by eapply list_elem_of_lookup_2.
Qed.

(** The whole loop: it reads the list to the end exactly when every time
    value is one a [Date] can hold. *)
Lemma forEach_groups (before items : list Sample) :
  forEach weekday items (groups_of weekday before)
  = if forallb (λ item, valid_time (dt item * 1000)) items
    then Returned (groups_of weekday (before ++ items))
    else Thrown (RangeError "Invalid time value").
Proof.
  revert before. induction items as [|item rest IH]; intros before.
  - cbn. by rewrite app_nil_r.
  - cbn [forEach forallb].
    destruct (valid_time (dt item * 1000)) eqn:Hvalid; cbn.
    + rewrite add_item_groups by done. cbn.
      rewrite IH. by rewrite <- app_assoc.
    + unfold add_item. by rewrite Hvalid.
Qed.

(** *** The summaries *)

Lemma summarize_group (items : list Sample) (d : Z) :
  summarize (group_of weekday items d)
  = match day_summary weekday (samples_of_day d items) with
    | Some f => Returned f
    | None => Thrown (TypeError "Cannot read properties of undefined: main")
    end.
Proof.
  unfold summarize, day_summary, group_of. cbn.
  destruct (samples_of_day d items) as [|first group]; cbn; [done|].
  by destruct (weather first).
Qed.

Lemma map_outcome_Returned {A B C} (f : A → outcome B) (h : C → A)
    (g : C → option B) (l : list C) (bs : list B) :
  (∀ c b, f (h c) = Returned b → g c = Some b) →
  map_outcome f (h <$> l) = Returned bs → Some <$> bs = g <$> l.
Proof.
  intros Hfg. revert bs. induction l as [|c rest IH]; intros bs; cbn.
  - by intros [= <-].
  - destruct (f (h c)) as [b|e] eqn:Hfc; cbn; [|done].
    destruct (map_outcome f (h <$> rest)) as [bs'|e]; cbn; [|done].
    intros [= <-]. cbn. apply Hfg in Hfc. rewrite Hfc. f_equal. by apply IH.
Qed.

Lemma map_outcome_total {A B} (f : A → outcome B) (l : list A) :
  Forall (λ a, ∃ b, f a = Returned b) l → ∃ bs, map_outcome f l = Returned bs.
Proof.
  induction 1 as [|a rest [b Hb] _ [bs Hbs]]; cbn; [by eexists|].
  rewrite Hb, Hbs. cbn. by eexists.
Qed.

Lemma slice_groups (items : list Sample) :
  slice 1 5 (groups_of weekday items).*2
  = group_of weekday items <$> take 4 (drop 1 (encounter_days items)).
Proof.
  unfold slice, groups_of. rewrite <- list_fmap_compose.
  change (5 - 1)%nat with 4%nat. by rewrite <- fmap_drop, <- fmap_take.
Qed.

End Loop.

(** *** Maximum, minimum and rounding *)

Lemma fold_max_from (temps : list Q) (a : Q) :
  ∃ m, fold_left (λ acc t, jsnum_max acc (Finite t)) temps (Finite a) = Finite m ∧
       (m = a ∨ m ∈ temps) ∧ (a <= m)%Q ∧ Forall (λ t, (t <= m)%Q) temps.
Proof.
  revert a. induction temps as [|t rest IH]; intros a; cbn.
  - exists a. repeat split; [by left|apply Qle_refl|constructor].
  - destruct (Qle_bool a t) eqn:Hle.
    + apply Qle_bool_iff in Hle.
      destruct (IH t) as (m & -> & Hm & Htm & Hrest). exists m.
      repeat split; [right; rewrite elem_of_cons; tauto|eapply Qle_trans; eassumption|].
      by constructor.
    + assert (t <= a)%Q as Hta.
      { apply Qnot_lt_le. intros Hlt%Qlt_le_weak%Qle_bool_iff. congruence. }
      destruct (IH a) as (m & -> & Hm & Ham & Hrest). exists m.
      repeat split; [rewrite elem_of_cons; tauto|done|].
      constructor; [eapply Qle_trans; eassumption|done].
Qed.

Lemma fold_min_from (temps : list Q) (a : Q) :
  ∃ m, fold_left (λ acc t, jsnum_min acc (Finite t)) temps (Finite a) = Finite m ∧
       (m = a ∨ m ∈ temps) ∧ (m <= a)%Q ∧ Forall (λ t, (m <= t)%Q) temps.
Proof.
  revert a. induction temps as [|t rest IH]; intros a; cbn.
  - exists a. repeat split; [by left|apply Qle_refl|constructor].
  - destruct (Qle_bool a t) eqn:Hle.
    + apply Qle_bool_iff in Hle.
      destruct (IH a) as (m & -> & Hm & Hma & Hrest). exists m.
      repeat split; [rewrite elem_of_cons; tauto|done|].
      constructor; [eapply Qle_trans; eassumption|done].
    + assert (t <= a)%Q as Hta.
      { apply Qnot_lt_le. intros Hlt%Qlt_le_weak%Qle_bool_iff. congruence. }
      destruct (IH t) as (m & -> & Hm & Hmt & Hrest). exists m.
      repeat split; [right; rewrite elem_of_cons; tauto|eapply Qle_trans; eassumption|].
      by constructor.
Qed.

(** [Math.max] of a list that is not empty is its greatest element. *)
Lemma Math_max_greatest (temps : list Q) :
  temps ≠ [] →
  ∃ m, Math_max temps = Finite m ∧ m ∈ temps ∧ Forall (λ t, (t <= m)%Q) temps.
Proof.
  destruct temps as [|t rest]; [done|]. intros _. unfold Math_max. cbn.
  destruct (fold_max_from rest t) as (m & -> & Hm & Htm & Hrest).
  exists m. repeat split; [rewrite elem_of_cons; tauto|by constructor].
Qed.

(** [Math.min] of a list that is not empty is its least element. *)
Lemma Math_min_least (temps : list Q) :
  temps ≠ [] →
  ∃ m, Math_min temps = Finite m ∧ m ∈ temps ∧ Forall (λ t, (m <= t)%Q) temps.
Proof.
  destruct temps as [|t rest]; [done|]. intros _. unfold Math_min. cbn.
  destruct (fold_min_from rest t) as (m & -> & Hm & Hmt & Hrest).
  exists m. repeat split; [rewrite elem_of_cons; tauto|by constructor].
Qed.

Lemma Math_round_mono (x y : Q) : (x <= y)%Q → (Math_round x <= Math_round y)%Z.
Proof.
  intros Hxy. unfold Math_round. apply Qfloor_resp_le. lra.
Qed.

Lemma rounded_extremes (temps : list Q) :
  temps ≠ [] →
  jsnum_le (jsnum_round (Math_min temps)) (jsnum_round (Math_max temps)).
Proof.
  intros Hne.
  destruct (Math_max_greatest temps Hne) as (hi & -> & Hhi & Hbound).
  destruct (Math_min_least temps Hne) as (lo & -> & Hlo & _).
  cbn. rewrite <- Zle_Qle. apply Math_round_mono.
  rewrite Forall_forall in Hbound. by apply Hbound.
Qed.

(** *** The claim *)

(** C3.  Whenever the aggregation returns, it returns the summaries of the
    days of the list taken in the order in which each is first met, the
    first of these days skipped and at most the four after it kept, in that
    order; a day is the UTC day of [dt * 1000], its group the samples of that
    day, and the summary of a group has [hi] the rounded maximum and [lo] the
    rounded minimum of its temperatures, so [lo <= hi].  It does return for
    every list whose time values a [Date] can hold and whose samples carry a
    weather condition. *)
Theorem dailyForecasts_spec (weekday : Z → string) (items : list Sample) :
  (∀ days,
     dailyForecasts weekday items = Returned days →
     Some <$> days = daily_summaries weekday items ∧
     (length days ≤ 4)%nat ∧
     Forall (λ f, jsnum_le (lo f) (hi f)) days) ∧
  (Forall well_formed items →
   ∃ days, dailyForecasts weekday items = Returned days).
Proof.
  unfold dailyForecasts.
  change (@nil (Z * DayGroup)) with (groups_of weekday []).
  rewrite forEach_groups. cbn [app]. split.
  - intros days.
    destruct (forallb _ items); [|discriminate]. cbn [obind].
    rewrite slice_groups. intros Hmap.
    apply (map_outcome_Returned _ _
             (λ d, day_summary weekday (samples_of_day d items))) in Hmap.
    2:{ intros d f. rewrite summarize_group.
        destruct (day_summary _ _); [congruence|discriminate]. }
    fold (daily_summaries weekday items) in Hmap.
    split; [exact Hmap|]. split.
    + apply (f_equal length) in Hmap. unfold daily_summaries in Hmap.
      rewrite !length_fmap, length_take in Hmap. lia.
    + apply Forall_forall. intros f Hf.
      apply (list_elem_of_fmap_2 Some) in Hf. rewrite Hmap in Hf.
      apply list_elem_of_fmap in Hf as (d & Hsummary & _).
      unfold day_summary in Hsummary.
      destruct (samples_of_day d items) as [|first group]; [discriminate|].
      cbn [head mbind option_bind] in Hsummary.
      destruct (weather first); [discriminate|].
      cbn [head mbind option_bind] in Hsummary. injection Hsummary as ->.
      cbv beta. cbn [lo hi].
      by apply (rounded_extremes (temp first :: (temp <$> group))).
  - intros Hwf.
    assert (forallb (λ item, valid_time (dt item * 1000)) items = true) as ->.
    { apply forallb_forall. intros item Hin%list_elem_of_In.
      rewrite Forall_forall in Hwf. by apply Hwf. }
    cbn [obind]. rewrite slice_groups. apply map_outcome_total.
    apply Forall_fmap, Forall_forall. intros d Hd. cbn.
    rewrite summarize_group.
    assert (d ∈ encounter_days items) as Hmet
      by by eapply subseteq_drop, subseteq_take.
    apply elem_of_encounter_days in Hmet.
    unfold day_summary.
    destruct (samples_of_day d items) as [|first group] eqn:Hgroup.
    { by apply samples_of_day_nil in Hgroup. }
    assert (first ∈ items) as Hfirst.
    { assert (first ∈ samples_of_day d items) as Hin
        by (rewrite Hgroup; apply elem_of_cons; by left).
      unfold samples_of_day in Hin. by apply list_elem_of_filter in Hin as [_ ?]. }
    rewrite Forall_forall in Hwf. destruct (Hwf first Hfirst) as [_ Hweather].
    cbn. destruct (weather first); [done|]. cbn. by eexists.
Qed.

Lemma dailyForecasts_spec_witness :
  ∃ days,
    dailyForecasts (λ _, "Monday") Examples.three_days = Returned days ∧
    (length days ≤ 4)%nat.
Proof.
  destruct (dailyForecasts_spec (λ _, "Monday") Examples.three_days)
    as [Hspec Htotal].
  destruct Htotal as [days Hdays].
  - unfold Examples.three_days.
    repeat (apply Forall_cons; split; [split; [reflexivity|discriminate]|]).
    apply Forall_nil_2.
  - exists days. split; [exact Hdays|]. by apply (Hspec days).
Defined.

(** The days of day 1 and day 2 of the example, day 0 skipped. *)
Example dailyForecasts_three_days :
  dailyForecasts (λ _, "Monday") Examples.three_days
  = Returned
      [ {| day := "Monday"; day_icon := Own WiRain; hi := Finite 3;
           lo := Finite 0; day_description := "light rain" |};
        {| day := "Monday"; day_icon := Own WiRain; hi := Finite 7;
           lo := Finite 7; day_description := "light rain" |} ].
Proof. reflexivity. Qed.

End WeatherCardFacts.

(** * Further properties *)

(** The goal [k ∈ l] for a key and a list written out. *)
Ltac listed := repeat (apply elem_of_cons; first [by left | right]).

(** ** fetchWeatherData on every host *)

Module WeatherServiceMore.
Import WeatherService.

Ltac chain_cases :=
  repeat (cbn;
    match goal with
    | |- context [configured ?k] => destruct (configured k) eqn:?
    | |- context [well_formed_utf16 ?x] => destruct (well_formed_utf16 x) eqn:?
    | |- context [proxy_fetch ?w ?r] =>
        destruct (proxy_fetch w r) as [[[] ? []]|] eqn:?
    | |- context [truthy ?v] => destruct (truthy v) eqn:?
    | |- context [length_is_zero ?v] => destruct (length_is_zero v) eqn:?
    | |- context [member ?v ?k] => destruct (member v k) eqn:?
    | |- context [is_str ?v ?k] => destruct (is_str v k) eqn:?
    | |- context [store_set ?w ?sc ?k ?v] => destruct (store_set w sc k v) eqn:?
    end).

(** The ways a trace written out splits around one of its events. *)
Ltac split_trace :=
  repeat match goal with
         | H : _ = ?pre ++ _ :: _ |- _ =>
             is_var pre; destruct pre; simplify_eq/=
         end.

Ltac unfold_service :=
  unfold fetchWeatherData, fetchPlacePredictions, encodeURIComponent;
  unfold try_catch, finally, bind, fetch, json, set, write, call, call_error,
    console_error, emit, lift, throw, ret.

(** Every run, whatever the host: the shape of its requests and writes. *)
Lemma fetchWeatherData_shape (w : world) (o : FetchWeatherDataOptions) (s : state) :
  ∃ evs s',
    fetchWeatherData w o s = (Returned tt, s') ∧
    trace s' = trace s ++ evs ∧
    device s' = device s ∧ loading s' = loading s ∧ error s' = error s ∧
    writes Device evs = [] ∧
    match configured (VITE_OPENWEATHER_API_KEY w) with
    | None => requests evs = []
    | Some apiKey =>
        ∃ n lat lon, requests evs = take n (chain o apiKey lat lon)
    end ∧
    (∃ n data forecast,
       writes Instance evs
       = take n [("currentWeather", data); ("forecastWeather", forecast)]) ∧
    (length (requests evs) - 2 ≤ length (writes Instance evs)
     ≤ length (requests evs) - 1)%nat ∧
    (∀ k, k ≠ "currentWeather" → k ≠ "forecastWeather" →
          instance s' !! k = instance s !! k) ∧
    (∃ n k lat lon u l data forecast,
       steps evs
       = take n [ EFetch (GeoDirect (cityName o) k);
                  EFetch (CurrentWeather lat lon k u l);
                  ESet Instance "currentWeather" data;
                  EFetch (Forecast lat lon k u l);
                  ESet Instance "forecastWeather" forecast ]).
Proof.
  unfold chain.
  destruct (has_onWeatherData o) eqn:HW, (has_onForecastData o) eqn:HF,
    (has_onError' o) eqn:HE.
  all: unfold_service; rewrite ?HW, ?HF, ?HE; chain_cases; cbn; tidy.
  all: do 2 eexists; (split; [reflexivity|]); cbn; (split; [reflexivity|]).
  all: do 4 (split; [reflexivity|]).
  all: split;
    [ first [ reflexivity
            | by exists 0%nat, JUndefined, JUndefined
            | by exists 1%nat, JUndefined, JUndefined
            | by eexists 2%nat, _, _
            | by eexists 3%nat, _, _ ] | ].
  all: split;
    [ first [ by exists 0%nat, JNull, JNull
            | by eexists 1%nat, _, JNull
            | by eexists 2%nat, _, _ ] | ].
  all: split; [cbn; lia|].
  all: split; [intros k Hcur Hfc; by rewrite ?lookup_insert_ne|].
  all: first [ by exists 0%nat, "", JNull, JNull, "", "", JNull, JNull
             | by eexists 1%nat, _, JNull, JNull, "", "", JNull, JNull
             | by eexists 2%nat, _, _, _, _, _, JNull, JNull
             | by eexists 3%nat, _, _, _, _, _, _, JNull
             | by eexists 4%nat, _, _, _, _, _, _, JNull
             | by eexists 5%nat, _, _, _, _, _, _, _ ].
Qed.

Lemma elem_of_take_chain (o : FetchWeatherDataOptions) (apiKey : string)
    (lat lon : jsval) (n : nat) (r : request) :
  r ∈ take n (chain o apiKey lat lon) →
  ∃ i, (i < n)%nat ∧ chain o apiKey lat lon !! i = Some r.
Proof.
  intros (i & Hi & Hn)%elem_of_take. eauto.
Qed.

(** X4.  The chain is gated: a run issues at most the three requests, each
    once and in the order geocode, current conditions, forecast.  Taken
    together in the order in which they happen, the requests and the writes
    of a run are an initial part of: the geocoding request, the request for
    the current conditions, the write to [currentWeather], the forecast
    request for the same coordinates, the write to [forecastWeather].  So
    nothing is written before the second request, and the forecast is
    requested only after the write to [currentWeather] was attempted.  The
    run returns normally and leaves the device store alone. *)
Theorem fetchWeatherData_gated (w : world) (o : FetchWeatherDataOptions) (s : state) :
  ∃ evs s',
    fetchWeatherData w o s = (Returned tt, s') ∧
    trace s' = trace s ++ evs ∧
    device s' = device s ∧ writes Device evs = [] ∧
    NoDup (requests evs) ∧ (length (requests evs) ≤ 3)%nat ∧
    (∀ lat lon k u l,
       Forecast lat lon k u l ∈ requests evs →
       requests evs = [GeoDirect (cityName o) k; CurrentWeather lat lon k u l;
                       Forecast lat lon k u l] ∧
       "currentWeather" ∈ (writes Instance evs).*1) ∧
    (∀ lat lon k u l,
       CurrentWeather lat lon k u l ∈ requests evs →
       take 2 (requests evs) = [GeoDirect (cityName o) k; CurrentWeather lat lon k u l]) ∧
    (∀ k v, (k, v) ∈ writes Instance evs → (2 ≤ length (requests evs))%nat) ∧
    (∃ n k lat lon u l data forecast,
       steps evs
       = take n [ EFetch (GeoDirect (cityName o) k);
                  EFetch (CurrentWeather lat lon k u l);
                  ESet Instance "currentWeather" data;
                  EFetch (Forecast lat lon k u l);
                  ESet Instance "forecastWeather" forecast ]).
Proof.
  destruct (fetchWeatherData_shape w o s)
    as (evs & s' & Hrun & Htrace & Hdev & _ & _ & Hnodev & Hreq & Hwr & Hlen & _
        & Hsteps).
  exists evs, s'. do 4 (split; [done|]).
  destruct Hwr as (m & data & forecast & Hwr).
  destruct (configured (VITE_OPENWEATHER_API_KEY w)) as [apiKey|].
  - destruct Hreq as (n & lat0 & lon0 & Hreq). rewrite Hreq, Hwr in *.
    unfold chain in *.
    destruct n as [|[|[|n]]], m as [|[|m]];
      cbn in Hlen, Hreq, Hwr |- *; rewrite ?take_nil in *; cbn in Hlen |- *;
      try lia.
    all: split;
      [ repeat (apply NoDup_cons; split; [set_solver|]); apply NoDup_nil_2 | ].
    all: split; [lia|].
    all: split;
      [ intros lat lon k u l Hin;
        repeat (apply elem_of_cons in Hin as [Hin|Hin]; [simplify_eq|]);
        try (by apply elem_of_nil in Hin); try (split; [done|set_solver]) | ].
    all: split;
      [ intros lat lon k u l Hin;
        repeat (apply elem_of_cons in Hin as [Hin|Hin]; [by simplify_eq|]);
        by apply elem_of_nil in Hin | ].
    all: split; [intros k v Hin; try lia; by apply elem_of_nil in Hin|].
    all: done.
  - rewrite Hreq in *. cbn in Hlen.
    assert (writes Instance evs = []) as Hnone
      by (destruct (writes Instance evs); [done|cbn in Hlen; lia]).
    rewrite Hnone. cbn.
    split; [constructor|]. split; [lia|].
    do 3 (split; [intros; exfalso; by eapply elem_of_nil|]).
    done.
Qed.

(** X6.  The units asked of the weather endpoints and the label that
    [formatTemperature] prints agree for every scale string: the requests
    say "imperial" exactly when the label is "°F", and "metric" otherwise. *)
Theorem units_agree_with_label
    (large_notation : Z → string) (w : world) (o : FetchWeatherDataOptions)
    (s : state) (temp : option number) :
  ∃ evs s',
    fetchWeatherData w o s = (Returned tt, s') ∧
    trace s' = trace s ++ evs ∧
    ∀ lat lon k u l,
      CurrentWeather lat lon k u l ∈ requests evs ∨
      Forecast lat lon k u l ∈ requests evs →
      ∃ text,
        formatTemperature large_notation temp (scale o)
        = text +:+ (if String.eqb u "imperial" then "°F" else "°C") ∧
        (u = "imperial" ∨ u = "metric").
Proof.
  destruct (fetchWeatherData_shape w o s)
    as (evs & s' & Hrun & Htrace & _ & _ & _ & _ & Hreq & _).
  exists evs, s'. do 2 (split; [done|]).
  intros lat lon k u l Hin.
  assert (u = if String.eqb (scale o) "Fahrenheit" then "imperial" else "metric")
    as ->.
  { destruct (configured (VITE_OPENWEATHER_API_KEY w)) as [apiKey|].
    - destruct Hreq as (n & lat0 & lon0 & Hreq). rewrite Hreq in Hin.
      destruct Hin as [Hin|Hin];
        apply elem_of_take_chain in Hin as (i & _ & Hi);
        unfold chain in Hi;
        destruct i as [|[|[|i]]]; cbn in Hi; by simplify_eq.
    - rewrite Hreq in Hin. destruct Hin as [Hin|Hin]; by apply elem_of_nil in Hin. }
  unfold formatTemperature.
  exists (match temp with
          | Some t => rounded_text large_notation t
          | None => "--"
          end).
  by destruct temp as [t|], (String.eqb (scale o) "Fahrenheit"); cbn; auto.
Qed.

(** X1.  Without an OpenWeatherMap key (none, or the empty string)
    [fetchWeatherData] only logs: no request is issued, no callback is called,
    [onError] included, and nothing is stored. *)
Theorem fetchWeatherData_without_key
    (w : world) (o : FetchWeatherDataOptions) (s : state) :
  configured (VITE_OPENWEATHER_API_KEY w) = None →
  ∃ evs,
    fetchWeatherData w o s = (Returned tt, after s evs) ∧
    evs = [EConsoleError "OpenWeatherMap API key not configured"] ∧
    requests evs = [] ∧ calls onWeatherData evs = [] ∧
    calls onForecastData evs = [] ∧ error_calls evs = [] ∧
    writes Instance evs = [].
Proof.
  intros Hkey. unfold fetchWeatherData, try_catch. rewrite Hkey. run.
  eexists. split; [reflexivity|]. by cbn.
Qed.

Lemma fetchWeatherData_without_key_witness :
  (fetchWeatherData Hosts.without_weather_key Examples.astana_options
     initial_state).2
  = after initial_state [EConsoleError "OpenWeatherMap API key not configured"].
Proof.
  destruct (fetchWeatherData_without_key Hosts.without_weather_key
              Examples.astana_options initial_state eq_refl)
    as (evs & Hrun & -> & _).
  by rewrite Hrun.
Defined.







(** X7.  With a key and all three callbacks given, a run ends in one of two
    ways and nothing in between: either [onError] is never called, the three
    requests of the chain were answered, each data callback has received
    exactly once the body of the response to its request, and these two
    bodies are what the two writes were attempted with; or [onError] is
    called exactly once and the last value of both data callbacks is null. *)
Theorem fetchWeatherData_all_or_nothing
    (w : world) (o : FetchWeatherDataOptions) (s : state) (apiKey : string) :
  configured (VITE_OPENWEATHER_API_KEY w) = Some apiKey →
  has_onWeatherData o = true → has_onForecastData o = true →
  has_onError' o = true →
  ∃ evs s',
    fetchWeatherData w o s = (Returned tt, s') ∧
    trace s' = trace s ++ evs ∧
    ((error_calls evs = [] ∧
      ∃ lat lon weatherResponse forecastResponse data forecast,
        let units :=
          if String.eqb (scale o) "Fahrenheit" then "imperial" else "metric" in
        requests evs
        = [ GeoDirect (cityName o) apiKey;
            CurrentWeather lat lon apiKey units (language o);
            Forecast lat lon apiKey units (language o) ] ∧
        proxy_fetch w (CurrentWeather lat lon apiKey units (language o))
        = Resolved weatherResponse ∧
        body weatherResponse = Some data ∧
        proxy_fetch w (Forecast lat lon apiKey units (language o))
        = Resolved forecastResponse ∧
        body forecastResponse = Some forecast ∧
        calls onWeatherData evs = [data] ∧
        calls onForecastData evs = [forecast] ∧
        writes Instance evs
        = [("currentWeather", data); ("forecastWeather", forecast)]) ∨
     (∃ e, error_calls evs = [e] ∧
           last (calls onWeatherData evs) = Some JNull ∧
           last (calls onForecastData evs) = Some JNull)).
Proof.
  intros Hkey HW HF HE.
  unfold_service. rewrite Hkey, ?HW, ?HF, ?HE. chain_cases; cbn; tidy.
  all: do 2 eexists; (split; [reflexivity|]); cbn; (split; [reflexivity|]).
  all: first [ right; by eexists | left; split; [reflexivity|] ].
  all: do 6 eexists; cbn zeta; split; [reflexivity|].
  all: split; [eassumption|]; split; [reflexivity|].
  all: split; [eassumption|]; by split.
Qed.

Lemma fetchWeatherData_all_or_nothing_witness :
  ∃ evs s',
    fetchWeatherData Examples.forecast_down Examples.astana_options initial_state
    = (Returned tt, s') ∧
    trace s' = evs ∧ error_calls evs ≠ [].
Proof.
  destruct (fetchWeatherData_all_or_nothing Examples.forecast_down
              Examples.astana_options initial_state "weather-key"
              eq_refl eq_refl eq_refl eq_refl)
    as (evs & s' & Hrun & Htrace & Hends).
  exists evs, s'. split; [exact Hrun|].
  assert (s' = (fetchWeatherData Examples.forecast_down Examples.astana_options
                  initial_state).2) as Hs' by (by rewrite Hrun).
  cbn in Htrace. split; [exact Htrace|].
  rewrite <- Htrace, Hs'. discriminate.
Defined.

(** ** fetchPlacePredictions on every host *)

(** X8.  Whatever the input and the host, [fetchPlacePredictions] returns
    normally, leaves both stores and the form's flags alone and issues at most
    one request, which is the autocomplete request for the input as given, of
    two code units or more, under the configured key.  It calls [onSuccess]
    at most once and [onError] at most once, and [onError] only as the last
    event of the run, right after the one call of [onSuccess], which was
    handed the empty list. *)
Theorem fetchPlacePredictions_footprint
    (w : world) (o : FetchPredictionsOptions) (s : state) :
  ∃ evs,
    fetchPlacePredictions w o s = (Returned tt, after s evs) ∧
    writes Instance evs = [] ∧ writes Device evs = [] ∧
    (length (requests evs) ≤ 1)%nat ∧
    (∀ r, r ∈ requests evs →
          ∃ apiKey,
            configured (VITE_GOOGLE_PLACES_API_KEY w) = Some apiKey ∧
            r = PlacesAutocomplete (input o) apiKey ∧
            (2 ≤ length (input o))%nat) ∧
    (length (calls onSuccess evs) ≤ 1)%nat ∧
    (length (error_calls evs) ≤ 1)%nat ∧
    (error_calls evs ≠ [] → calls onSuccess evs = [JArr []]) ∧
    (∀ pre post err,
       evs = pre ++ ECallError err :: post →
       post = [] ∧
       ∃ earlier, pre = earlier ++ [ECall onSuccess (JArr [])] ∧
                  calls onSuccess earlier = []).
Proof.
  unfold fetchPlacePredictions.
  rewrite WeatherServiceFacts.short_input_test.
  case_bool_decide as Hshort.
  { run. eexists. split; [reflexivity|]. cbn.
    do 7 (split; [first [done | lia | intros r Hr; by apply elem_of_nil in Hr]|]).
    intros pre post err Hsplit. by split_trace. }
  destruct (has_onError o) eqn:HE.
  all: unfold_service; rewrite ?HE; chain_cases; cbn; tidy.
  all: eexists; (split; [reflexivity|]); cbn.
  all: do 3 (split; [first [reflexivity | cbn; lia]|]).
  all: split;
    [ intros r Hr;
      repeat (apply elem_of_cons in Hr as [Hr|Hr];
              [subst r; eexists; split; [reflexivity|split; [reflexivity|lia]]|]);
      by apply elem_of_nil in Hr | ].
  all: do 2 (split; [cbn; lia|]).
  all: split; [by intros|].
  all: intros pre post err Hsplit; split_trace.
  all: split; [reflexivity|].
  all: first [ by eexists [] | by eexists [_] | by eexists [_; _]
             | by eexists [_; _; _] ].
Qed.

End WeatherServiceMore.

(** ** The settings form around the two fetches *)

Module SettingsFormFacts.
Import WeatherService SettingsForm WeatherServiceMore.

Ltac new_events := unfold added, after; cbn; rewrite !drop_app_length; cbn.

(** X9.  Without a Places API key the search never settles: for an open
    dropdown and an input of two code units or more the timer sets
    [searchLoading] and no callback clears it, so the "Loading..." indicator
    stays, the predictions are the old ones, "No locations found" is not
    shown and no request is issued. *)
Theorem search_timer_without_key (w : world) (u : ui) (s : state) :
  showPredictions u = true →
  (2 ≤ length (locationInput u))%nat →
  configured (VITE_GOOGLE_PLACES_API_KEY w) = None →
  let u' := (search_timer w u s).1 in
  let s' := (search_timer w u s).2 in
  searchLoading u' = true ∧ loading_indicator u' = true ∧
  no_locations_found u' = false ∧
  predictions u' = predictions u ∧
  requests (added s s') = [] ∧
  calls onSuccess (added s s') = [] ∧ error_calls (added s s') = [].
Proof.
  intros Hshow Hlong Hkey. unfold search_timer. rewrite Hshow.
  destruct (Nat.eqb_spec (length (locationInput u)) 0) as [Hzero|_]; [lia|].
  cbn [andb negb]. unfold fetchPlacePredictions. cbn [input has_onError].
  rewrite WeatherServiceFacts.short_input_test, bool_decide_eq_false_2 by lia.
  unfold try_catch. rewrite Hkey. run.
  new_events. unfold no_locations_found. cbn.
  by rewrite !andb_false_r.
Qed.

Lemma search_timer_without_key_witness :
  searchLoading
    (search_timer Examples.without_places_key
       {| locationInput := Examples.typed_As; predictions := JArr [];
          showPredictions := true; searchLoading := false;
          weatherData := JNull; weatherLoading := false;
          forecastData := JNull; selectedCity := [] |} initial_state).1
  = true.
Proof.
  apply (search_timer_without_key Examples.without_places_key
           {| locationInput := Examples.typed_As; predictions := JArr [];
              showPredictions := true; searchLoading := false;
              weatherData := JNull; weatherLoading := false;
              forecastData := JNull; selectedCity := [] |} initial_state).
  - reflexivity.
  - simpl. lia.
  - reflexivity.
Defined.

(** What a search with a key hands to the callbacks of the form. *)
Lemma search_events (w : world) (o : FetchPredictionsOptions) (s : state) :
  (2 ≤ length (input o))%nat → has_onError o = true →
  configured (VITE_GOOGLE_PLACES_API_KEY w) ≠ None →
  ∃ evs v,
    fetchPlacePredictions w o s = (Returned tt, after s evs) ∧
    calls onSuccess evs = [v] ∧
    (∀ u, fold_left search_callback evs (setSearchLoading true u)
          = setSearchLoading false (setPredictions v u)) ∧
    (v = JArr [] ∨ truthy v = true).
Proof.
  intros Hlong HE Hkey. unfold fetchPlacePredictions.
  rewrite WeatherServiceFacts.short_input_test, bool_decide_eq_false_2 by lia.
  unfold_service. rewrite HE. chain_cases; cbn; tidy.
  all: try congruence.
  all: do 2 eexists; (split; [reflexivity|]); cbn.
  all: split; [reflexivity|]; split; [reflexivity|]; auto.
Qed.

(** X10.  With the list closed or the input empty the timer does nothing
    at all.  With the list open and a Places API key, or an input of a
    single code unit, the search always settles: after the timer
    [searchLoading] is false whatever the proxy answered, the predictions are
    what [onSuccess] was handed (the empty list for a single code unit,
    without a request), and they are never null or undefined, so reading
    their [length] cannot throw. *)
Theorem search_timer_settles (w : world) (u : ui) (s : state) :
  (showPredictions u = false ∨ locationInput u = [] →
   search_timer w u s = (u, s)) ∧
  (showPredictions u = true →
   locationInput u ≠ [] →
   ((length (locationInput u) < 2)%nat ∨
    configured (VITE_GOOGLE_PLACES_API_KEY w) ≠ None) →
   let u' := (search_timer w u s).1 in
   let s' := (search_timer w u s).2 in
   searchLoading u' = false ∧
   calls onSuccess (added s s') = [predictions u'] ∧
   (predictions u' = JArr [] ∨ truthy (predictions u') = true) ∧
   ((length (locationInput u) < 2)%nat →
    predictions u' = JArr [] ∧ requests (added s s') = []) ∧
   weatherData u' = weatherData u ∧ forecastData u' = forecastData u ∧
   weatherLoading u' = weatherLoading u).
Proof.
  split.
  { unfold search_timer. intros [->| ->]; [done|].
    by rewrite andb_false_r. }
  intros Hshow Hinput Hcan. unfold search_timer. rewrite Hshow.
  destruct (Nat.eqb_spec (length (locationInput u)) 0) as [Hzero|_].
  { by destruct (locationInput u). }
  cbn [andb negb].
  destruct (decide (length (locationInput u) < 2)%nat) as [Hshort|Hlong].
  { unfold fetchPlacePredictions. cbn [input has_onError].
    rewrite WeatherServiceFacts.short_input_test, bool_decide_eq_true_2 by done.
    run. new_events. repeat split; auto. }
  destruct Hcan as [?|Hkey]; [lia|].
  destruct (search_events w {| input := locationInput u; has_onError := true |} s)
    as (evs & v & -> & Hcalls & Hfold & Hv); [cbn; lia|done|done|].
  new_events. rewrite Hfold, Hcalls. cbn.
  repeat split; auto. all: lia.
Qed.

Lemma search_timer_settles_witness :
  predictions
    (search_timer Examples.online
       {| locationInput := Examples.typed_As; predictions := JArr [];
          showPredictions := true; searchLoading := false;
          weatherData := JNull; weatherLoading := false;
          forecastData := JNull; selectedCity := [] |} initial_state).1
  = JArr [Examples.astana_prediction].
Proof.
  destruct (proj2 (search_timer_settles Examples.online
           {| locationInput := Examples.typed_As; predictions := JArr [];
              showPredictions := true; searchLoading := false;
              weatherData := JNull; weatherLoading := false;
              forecastData := JNull; selectedCity := [] |} initial_state))
    as (_ & Hcalls & _).
  - reflexivity.
  - discriminate.
  - right. discriminate.
  - reflexivity.
Defined.

(** What a run with a key hands to the callbacks of the form. *)
Lemma weather_events (w : world) (o : FetchWeatherDataOptions) (s : state) :
  has_onWeatherData o = true → has_onForecastData o = true →
  has_onError' o = true →
  configured (VITE_OPENWEATHER_API_KEY w) ≠ None →
  ∃ evs s',
    fetchWeatherData w o s = (Returned tt, s') ∧
    trace s' = trace s ++ evs ∧
    ((error_calls evs = [] ∧
      ∃ data forecast,
        writes Instance evs
        = [("currentWeather", data); ("forecastWeather", forecast)] ∧
        ∀ u, fold_left weather_callback evs u
             = setForecastData forecast (setWeatherData data u)) ∨
     (error_calls evs ≠ [] ∧
      ∀ u, fold_left weather_callback evs u
           = setWeatherLoading false
               (setForecastData JNull (setWeatherData JNull u)))).
Proof.
  intros HW HF HE Hkey.
  unfold_service. rewrite ?HW, ?HF, ?HE. chain_cases; cbn; tidy.
  all: try congruence.
  all: do 2 eexists; (split; [reflexivity|]); cbn; (split; [reflexivity|]).
  all: first [ left; split; [reflexivity|]; by eexists _, _
             | right; by split ].
Qed.

(** X11.  [handleFetchWeatherData] always ends with [weatherLoading] false
    and never touches the search fields.  Without an OpenWeatherMap key the
    weather and forecast shown are the old ones.  With a key the form ends
    either with the weather and forecast of a run in which both writes were
    attempted, or with both null. *)
Theorem handleFetchWeatherData_settles
    (w : world) (f : Settings.form) (cityName : jsstring) (u : ui) (s : state) :
  let u' := (handleFetchWeatherData w f cityName u s).1 in
  let s' := (handleFetchWeatherData w f cityName u s).2 in
  weatherLoading u' = false ∧
  locationInput u' = locationInput u ∧ predictions u' = predictions u ∧
  showPredictions u' = showPredictions u ∧ searchLoading u' = searchLoading u ∧
  selectedCity u' = selectedCity u ∧
  (configured (VITE_OPENWEATHER_API_KEY w) = None →
   weatherData u' = weatherData u ∧ forecastData u' = forecastData u ∧
   requests (added s s') = []) ∧
  (configured (VITE_OPENWEATHER_API_KEY w) ≠ None →
   (error_calls (added s s') = [] ∧
    writes Instance (added s s')
    = [("currentWeather", weatherData u'); ("forecastWeather", forecastData u')]) ∨
   (error_calls (added s s') ≠ [] ∧
    weatherData u' = JNull ∧ forecastData u' = JNull)).
Proof.
  unfold handleFetchWeatherData.
  set (o := {| cityName := cityName; scale := Settings.scale f;
               language := Settings.language f; has_onWeatherData := true;
               has_onForecastData := true; has_onError' := true |}).
  destruct (configured (VITE_OPENWEATHER_API_KEY w)) as [apiKey|] eqn:Hkey.
  - destruct (weather_events w o s eq_refl eq_refl eq_refl)
      as (evs & s' & Hrun & Htrace & Hends); [by rewrite Hkey|].
    rewrite Hrun. cbn [fst snd]. unfold added. rewrite Htrace, drop_app_length.
    destruct Hends as [(Hnone & data & forecast & Hwrites & Hfold)
                      |(Herror & Hfold)]; rewrite Hfold; cbn.
    + repeat split; try done. intros _. left. by rewrite Hwrites.
    + repeat split; try done. intros _. by right.
  - unfold o, fetchWeatherData, try_catch. rewrite Hkey. run. new_events.
    repeat split; done.
Qed.

(** X12.  The effect on scale and language refetches for the selected city
    only: with no city selected it does nothing at all, and with one selected
    and a key configured every request it issues belongs to the chain that
    starts at the geocoding of that city, with the units of the new scale. *)
Theorem on_scale_or_language_refetches
    (w : world) (f : Settings.form) (u : ui) (s : state) :
  let u' := (on_scale_or_language w f u s).1 in
  let s' := (on_scale_or_language w f u s).2 in
  (selectedCity u = [] → u' = u ∧ s' = s) ∧
  (selectedCity u ≠ [] →
   ∀ apiKey, configured (VITE_OPENWEATHER_API_KEY w) = Some apiKey →
     ∃ n lat lon,
       let units :=
         if String.eqb (Settings.scale f) "Fahrenheit" then "imperial"
         else "metric" in
       requests (added s s')
       = take n [ GeoDirect (selectedCity u) apiKey;
                  CurrentWeather lat lon apiKey units (Settings.language f);
                  Forecast lat lon apiKey units (Settings.language f) ]).
Proof.
  unfold on_scale_or_language.
  destruct (selectedCity u) as [|c city] eqn:Hcity; cbn [length Nat.eqb negb].
  { split; [done|]. by intros []. }
  split; [done|]. intros _.
  intros apiKey Hkey. unfold handleFetchWeatherData. cbn [fst snd].
  set (o := {| cityName := c :: city; scale := Settings.scale f;
               language := Settings.language f; has_onWeatherData := true;
               has_onForecastData := true; has_onError' := true |}).
  destruct (fetchWeatherData_shape w o s)
    as (evs & s' & Hrun & Htrace & _ & _ & _ & _ & Hreq & _).
  rewrite Hrun. cbn [snd]. unfold added. rewrite Htrace, drop_app_length.
  rewrite Hkey in Hreq. exact Hreq.
Qed.

End SettingsFormFacts.

(** ** handleSave: the message *)

Module SettingsMore.
Import Settings SettingsFacts.

Ltac save_cases :=
  repeat match goal with
         | |- context [store_set ?w ?sc ?k ?v] =>
             let H := fresh "Hset" in
             destruct (store_set w sc k v) eqn:H; cbn
         | |- context [String.eqb ?a ?b] =>
             destruct (String.eqb_spec a b); cbn
         | |- context [format ?w ?p] =>
             let H := fresh "Hformat" in
             destruct (format w p) eqn:H; cbn
         end.

(** X13.  [handleSave] shows the message of the first thing that went
    wrong and nothing else: "Failed to save configuration" when the write of
    [viewConfig] is answered with [false] (and then nothing was stored), the
    message of the error a write rejected with or that [format] threw on
    the date pattern or on the time pattern, no key but [viewConfig] having
    been written then ("Unknown error" for a value that is not an [Error]);
    when nothing fails the error left by an earlier save is cleared.  The
    device store is never written. *)
Theorem handleSave_message (w : world) (f : form) (s : state) :
  let s' := (handleSave w f s).2 in
  let evs := SettingsForm.added s s' in
  device s' = device s ∧ writes Device evs = [] ∧
  (store_set w Instance "viewConfig" (viewConfig_value f) = SetFalse →
   error s' = Some "Failed to save configuration" ∧ instance s' = instance s) ∧
  (∀ k v e, (k, v) ∈ writes Instance evs →
            store_set w Instance k v = SetReject e →
            error s' = Some (shown_message e)) ∧
  (∀ e, store_set w Instance "viewConfig" (viewConfig_value f) = SetTrue →
        dateTimeOption f = "Custom" →
        format w (dateFormat f) = Thrown e →
        error s' = Some (shown_message e) ∧
        writes Instance evs = [("viewConfig", viewConfig_value f)]) ∧
  (∀ date e, store_set w Instance "viewConfig" (viewConfig_value f) = SetTrue →
             dateTimeOption f = "Custom" →
             format w (dateFormat f) = Returned date →
             format w (timeFormat f) = Thrown e →
             error s' = Some (shown_message e) ∧
             writes Instance evs = [("viewConfig", viewConfig_value f)]) ∧
  ((∀ k v, ¬ failing_write w k v) → (∀ p e, format w p ≠ Thrown e) →
   error s' = None).
Proof.
  unfold handleSave, formatted, setLoading, setError, shown_message. run.
  save_cases; tidy.
  all: unfold SettingsForm.added; cbn; rewrite ?drop_app_length; cbn.
  all: do 2 (split; [reflexivity|]).
  all: split; [by intros|].
  all: split;
    [ intros k v err Hin Hrej; members Hin; settle | ].
  all: split; [intros err ? Hcustom ?; settle|].
  all: split; [intros date err ? Hcustom ? ?; settle|].
  all: intros Hnone Hfmt; first [reflexivity | contradict_outcome].
Qed.

Lemma handleSave_message_witness :
  error (handleSave Examples.scale_write_fails Examples.sky_form initial_state).2
  = Some "Operation timed out".
Proof.
  destruct (handleSave_message Examples.scale_write_fails Examples.sky_form
              initial_state) as (_ & _ & _ & Hrej & _).
  apply (Hrej "scaleSettings" (scaleSettings_value Examples.sky_form)
           (Error "Operation timed out")); [|reflexivity].
  cbn. rewrite !elem_of_cons. auto.
Defined.

(** X14.  A refusal the form never reports.  Only the answer to the write
    of [viewConfig] is looked at: when the store answers [false] to one of
    the three later writes, the key keeps the value it had before the save,
    and unless some write rejects the save goes on to the last key and ends
    without an error message. *)
Theorem handleSave_unreported_refusal (w : world) (f : form) (s : state)
    (k : string) (v : jsval) :
  (k, v) ∈ writes Instance (SettingsForm.added s (handleSave w f s).2) →
  k ≠ "viewConfig" →
  store_set w Instance k v = SetFalse →
  instance (handleSave w f s).2 !! k = instance s !! k ∧
  ((∀ k' v' e, store_set w Instance k' v' ≠ SetReject e) →
   error (handleSave w f s).2 = None ∧
   (writes Instance (SettingsForm.added s (handleSave w f s).2)).*1 = save_order).
Proof.
  unfold handleSave, formatted, setLoading, setError. run.
  save_cases; tidy.
  all: unfold SettingsForm.added; cbn; rewrite ?drop_app_length; cbn.
  all: intros Hin Hk Hfalse; members Hin; try congruence.
  all: split; [by rewrite ?lookup_insert_ne by congruence|].
  all: intros Hno; first [done | exfalso; by eapply Hno].
Qed.

Lemma handleSave_unreported_refusal_witness :
  let s' := (handleSave SaveHosts.later_writes_refused Examples.sky_form
               initial_state).2 in
  instance s' !! "scaleSettings" = None ∧ error s' = None.
Proof.
  destruct (handleSave_unreported_refusal SaveHosts.later_writes_refused
              Examples.sky_form initial_state "scaleSettings"
              (scaleSettings_value Examples.sky_form)) as [Hkept Hquiet].
  - cbn. rewrite !elem_of_cons. auto.
  - discriminate.
  - reflexivity.
  - split; [exact Hkept|]. apply Hquiet. intros k' v' e. cbn.
    by destruct (String.eqb k' "viewConfig").
Defined.

End SettingsMore.

Module AggregationMore.
Import WeatherCard DailySpec DailyOutcome WeatherCardFacts.

Lemma map_outcome_cases {A B} (f : A → outcome B) (l : list A) :
  (∃ bs, map_outcome f l = Returned bs ∧ Forall (λ a, ∃ b, f a = Returned b) l) ∨
  (∃ a e, a ∈ l ∧ f a = Thrown e ∧ map_outcome f l = Thrown e).
Proof.
  induction l as [|a rest IH]; cbn.
  - left. eexists. by split.
  - destruct (f a) as [b|e] eqn:Hfa; cbn.
    + destruct IH as [(bs & -> & Hall)|(a' & e & Hin & Hthrown & ->)]; cbn.
      * left. eexists. split; [done|]. constructor; [by eexists|done].
      * right. exists a', e. rewrite elem_of_cons. tauto.
    + right. exists a, e. rewrite elem_of_cons. tauto.
Qed.

Lemma forallb_false {A} (f : A → bool) (l : list A) :
  forallb f l = false → ∃ a, a ∈ l ∧ f a = false.
Proof.
  induction l as [|a rest IH]; cbn; [done|].
  destruct (f a) eqn:Hfa; cbn.
  - intros (a' & Hin & Hbad)%IH. exists a'. rewrite elem_of_cons. tauto.
  - intros _. exists a. rewrite elem_of_cons. tauto.
Qed.

Lemma summarize_throws (g : DayGroup) (e : js_exn) :
  summarize g = Thrown e →
  e = TypeError "Cannot read properties of undefined: main" ∧ day_weather g = None.
Proof. unfold summarize. destruct (day_weather g); [done|]. by intros [= <-]. Qed.

Lemma Some_fmap_Forall2 {A B} (g : A → option B) (l : list A) (bs : list B) :
  Some <$> bs = g <$> l → Forall2 (λ a b, g a = Some b) l bs.
Proof.
  revert bs. induction l as [|a rest IH]; intros [|b bs] Heq;
    simplify_eq/=; constructor; auto.
Qed.

Section Outcome.

Variable weekday : Z → string.

Lemma dailyForecasts_read (items : list Sample) :
  dailyForecasts weekday items
  = if forallb (λ item, valid_time (dt item * 1000)) items
    then map_outcome summarize (group_of weekday items <$> take 4 (drop 1 (encounter_days items)))
    else Thrown (RangeError "Invalid time value").
Proof.
  unfold dailyForecasts.
  change (@nil (Z * DayGroup)) with (groups_of weekday []).
  rewrite forEach_groups. cbn [app].
  destruct (forallb _ items); [|done]. cbn [obind]. by rewrite slice_groups.
Qed.

Lemma kept_met (items : list Sample) (d : Z) :
  d ∈ take 4 (drop 1 (encounter_days items)) → ∃ first rest, samples_of_day d items = first :: rest.
Proof.
  intros Hd.
  assert (d ∈ encounter_days items) as Hmet
    by by eapply subseteq_drop, subseteq_take.
  apply elem_of_encounter_days in Hmet.
  destruct (samples_of_day d items) as [|first rest] eqn:Hgroup; [|by eauto].
  by apply samples_of_day_nil in Hgroup.
Qed.

(** X15.  The three outcomes of the daily aggregation, exactly.  It throws
    a RangeError when some sample of the list, of whatever day, has a time
    no Date can hold; otherwise it throws a TypeError when the first sample
    of one of the at most four days it keeps has an empty [weather] array;
    otherwise it returns.  A sample without a condition that is not the
    first of a kept day does no harm. *)
Theorem dailyForecasts_outcome (items : list Sample) :
  (dailyForecasts weekday items = Thrown (RangeError "Invalid time value")
   ↔ unreadable items) ∧
  (dailyForecasts weekday items
   = Thrown (TypeError "Cannot read properties of undefined: main")
   ↔ ¬ unreadable items ∧ undescribed items) ∧
  ((∃ days, dailyForecasts weekday items = Returned days)
   ↔ ¬ unreadable items ∧ ¬ undescribed items).
Proof.
  rewrite dailyForecasts_read.
  destruct (forallb _ items) eqn:Hread.
  - assert (¬ unreadable items) as Hreadable.
    { intros (item & Hin & Hbad). rewrite forallb_forall in Hread.
      apply list_elem_of_In, Hread in Hin. congruence. }
    destruct (map_outcome_cases summarize (group_of weekday items <$> take 4 (drop 1 (encounter_days items))))
      as [(days & -> & Hall)|(g & e & Hin & Hthrown & ->)].
    + assert (¬ undescribed items) as Hdescribed.
      { intros (d & first & rest & Hd & Hgroup & Hweather).
        rewrite Forall_fmap, Forall_forall in Hall.
        destruct (Hall d Hd) as [f Hf]. cbn in Hf.
        rewrite summarize_group, Hgroup in Hf. unfold day_summary in Hf.
        cbn in Hf. by rewrite Hweather in Hf. }
      split; [split; [done|tauto]|]. split; [split; [done|tauto]|].
      split; [tauto|]. intros _. by eexists.
    + apply summarize_throws in Hthrown as [-> Hnone].
      apply list_elem_of_fmap in Hin as (d & -> & Hd).
      assert (undescribed items) as Hundescribed.
      { destruct (kept_met items d Hd) as (first & rest & Hgroup).
        exists d, first, rest. split; [done|]. split; [done|].
        unfold group_of in Hnone. cbn in Hnone. rewrite Hgroup in Hnone.
        cbn in Hnone. by destruct (weather first). }
      split; [split; [done|tauto]|]. split; [tauto|].
      split; [by intros [days ?]|tauto].
  - assert (unreadable items) as Hunreadable.
    { by apply forallb_false. }
    split; [tauto|]. split; [split; [done|tauto]|].
    split; [by intros [days ?]|tauto].
Qed.

End Outcome.

End AggregationMore.

Module CardFacts.
Import WeatherCard DailySpec WeatherCardFacts AggregationMore.

Lemma map_outcome_length {A B} (f : A → outcome B) (l : list A) (bs : list B) :
  map_outcome f l = Returned bs → length bs = length l.
Proof.
  revert bs. induction l as [|a rest IH]; intros bs; cbn.
  - by intros [= <-].
  - destruct (f a); cbn; [|done].
    destruct (map_outcome f rest); cbn; [|done].
    intros [= <-]. cbn. f_equal. by apply IH.
Qed.

Lemma usable_scale_Some (data : option Card.ScaleSettings) (v : string) :
  Card.usable_scale data = Some v → v ≠ "".
Proof.
  unfold Card.usable_scale. destruct data as [d|]; [|done].
  destruct (String.eqb_spec (Card.scale_value d) ""); [done|]. by intros [= <-].
Qed.

Lemma interleaving_Forall {A} (P : A → Prop) (l1 l2 l : list A) :
  Card.interleaving l1 l2 l → Forall P l1 → Forall P l2 → Forall P l.
Proof.
  induction 1 as [|a l1 l2 l _ IH|a l1 l2 l _ IH]; intros H1 H2.
  - constructor.
  - apply Forall_cons in H1 as [? ?]. constructor; auto.
  - apply Forall_cons in H2 as [? ?]. constructor; auto.
Qed.

(** The daily forecasts a sequence of setter calls leaves, from [days]. *)
Lemma dailyForecasts_fold (updates : list Card.update) (c : Card.card) :
  Card.dailyForecasts (fold_left Card.apply_update updates c)
  = fold_left (λ days u, match u with
                         | Card.setDailyForecasts v => v
                         | _ => days
                         end) updates (Card.dailyForecasts c).
Proof.
  revert c. induction updates as [|u rest IH]; intros c; cbn; [done|].
  rewrite IH. by destruct u.
Qed.

Section Card.

Variable weekday : Z → string.
Variable large_notation : Z → string.
Variable fraction_notation : Q → string.

Lemma number_text_integer (z : Z) :
  Card.number_text large_notation fraction_notation (Finite (inject_Z z))
  = number_to_string large_notation z.
Proof.
  unfold Card.number_text. rewrite Qfloor_Z.
  by assert (Qeq_bool (inject_Z z) (inject_Z z) = true) as ->
    by by apply Qeq_bool_iff.
Qed.

Lemma formatTemp_rounded (scale : string) (q : Q) :
  Card.formatTemp large_notation fraction_notation scale
    (Card.Number (jsnum_round (Finite q)))
  = formatTemperature large_notation (Some (Num (Finite q))) scale.
Proof. cbn [jsnum_round Card.formatTemp]. by rewrite number_text_integer. Qed.

(** X16.  The forecast strip after a successful aggregation.  When the
    card holds the days the aggregation returned for a forecast, and there
    is at least one, the strip has one column per kept day, in order:
    labelled with the weekday of the first sample of that day, and showing
    the greatest and the least temperature of the day as
    [formatTemperature] prints them in the scale of the card. *)
Theorem forecast_row_of_forecast (items : list Sample) (c : Card.card) :
  dailyForecasts weekday items = Returned (Card.dailyForecasts c) →
  Card.dailyForecasts c ≠ [] →
  Forall2
    (λ d column,
       ∃ first rest m_hi m_lo,
         samples_of_day d items = first :: rest ∧
         Card.column_label column = weekday (dt first * 1000) ∧
         m_hi ∈ temp <$> first :: rest ∧
         m_lo ∈ temp <$> first :: rest ∧
         Forall (λ t, (m_lo <= t)%Q ∧ (t <= m_hi)%Q) (temp <$> first :: rest) ∧
         Card.column_hi column
         = formatTemperature large_notation (Some (Num (Finite m_hi)))
             (Card.scale c) ∧
         Card.column_lo column
         = formatTemperature large_notation (Some (Num (Finite m_lo)))
             (Card.scale c))
    (take 4 (drop 1 (encounter_days items)))
    (Card.forecast_row large_notation fraction_notation c).
Proof.
  intros Hdays Hsome. rewrite dailyForecasts_read in Hdays.
  destruct (forallb _ items); [|done].
  apply (map_outcome_Returned _ _
           (λ d, day_summary weekday (samples_of_day d items))) in Hdays.
  2:{ intros d f. rewrite summarize_group.
      destruct (day_summary _ _); [congruence|discriminate]. }
  apply Some_fmap_Forall2 in Hdays.
  unfold Card.forecast_row.
  destruct (Card.dailyForecasts c) as [|f days] eqn:Hc; [done|].
  cbn [length Nat.ltb Nat.leb]. rewrite <- Hc in *. clear Hc Hsome.
  apply Forall2_fmap_r. eapply Forall2_impl; [exact Hdays|].
  intros d f' Hsummary. cbv beta in Hsummary. unfold day_summary in Hsummary.
  destruct (samples_of_day d items) as [|first rest]; [done|].
  cbn [head mbind option_bind] in Hsummary.
  destruct (weather first) as [|condition ?]; [done|].
  cbn [head mbind option_bind] in Hsummary. injection Hsummary as <-.
  destruct (Math_max_greatest (temp <$> first :: rest)) as (m_hi & Hmax & Hhi & Hle);
    [done|].
  destruct (Math_min_least (temp <$> first :: rest)) as (m_lo & Hmin & Hlo & Hge);
    [done|].
  exists first, rest, m_hi, m_lo. split; [done|]. split; [done|].
  split; [done|]. split; [done|]. split.
  { rewrite Forall_forall in Hle, Hge. apply Forall_forall. intros t Ht.
    split; [by apply Hge|by apply Hle]. }
  unfold Card.DayForecast.
  cbn [Card.column_hi Card.column_lo Card.hi Card.lo Card.scale' hi lo].
  change (temp first :: list_fmap Sample Q temp rest)
    with (temp <$> first :: rest).
  rewrite Hmax, Hmin. by rewrite !formatTemp_rounded.
Qed.

(** What every setter call of a life satisfies. *)
Lemma life_safe (r : Card.stored) (ns : list Card.notification)
    (updates : list Card.update) :
  Card.life weekday r ns updates →
  Forall (λ u, match u with
               | Card.setScale v => v ≠ ""
               | Card.setDailyForecasts v => (length v ≤ 4)%nat
               | _ => True
               end) updates.
Proof.
  intros Hlife. eapply interleaving_Forall; [exact Hlife| |].
  - unfold Card.loadInitialData.
    repeat first [apply Forall_cons; split; [done|] | apply Forall_app; split].
    + destruct (Card.stored_settings r); by repeat constructor.
    + destruct (Card.usable_scale _) eqn:Hscale; [|constructor].
      apply usable_scale_Some in Hscale. by repeat constructor.
    + destruct (Card.stored_forecast r) as [forecast_list|]; [|constructor].
      rewrite dailyForecasts_read.
      destruct (forallb _ forecast_list); [|constructor].
      destruct (map_outcome _ _) as [days|] eqn:Hdays; [|constructor].
      apply map_outcome_length in Hdays.
      rewrite length_fmap, length_take in Hdays.
      constructor; [lia|constructor].
  - apply Forall_concat, Forall_fmap, Forall_forall. intros n _.
    destruct n as [data|data|data|[data|]]; cbn; try by repeat constructor.
    destruct (Card.usable_scale data) eqn:Hscale; [|constructor].
    apply usable_scale_Some in Hscale. by repeat constructor.
Qed.

(** X17.  What holds of a mounted card at every moment.  Whatever the
    store held at the load, whatever notifications arrive and however they
    fall between the steps of the load, after any number of the setter
    calls the scale of the card is not the empty string and the forecast
    strip has between one and four columns. *)
Theorem card_always (r : Card.stored) (ns : list Card.notification)
    (updates seen : list Card.update) :
  Card.life weekday r ns updates →
  seen `prefix_of` updates →
  Card.scale (Card.card_after seen) ≠ "" ∧
  (1 ≤ length (Card.forecast_row large_notation fraction_notation
               (Card.card_after seen)) ≤ 4)%nat.
Proof.
  intros Hsafe%life_safe [later ->]. apply Forall_app in Hsafe as [Hsafe _].
  unfold Card.card_after.
  assert (Card.scale Card.initial_card ≠ "" ∧
          (length (Card.dailyForecasts Card.initial_card) ≤ 4)%nat) as Hinit
    by (split; [done|cbn; lia]).
  revert Hinit. generalize Card.initial_card.
  induction Hsafe as [|u rest Hu _ IH]; intros c [Hscale Hdaily].
  - cbn [fold_left]. split; [done|]. unfold Card.forecast_row.
    destruct (Card.dailyForecasts c) as [|f days]; cbn in *; [lia|].
    rewrite length_fmap. lia.
  - cbn [fold_left]. apply IH. by destruct u.
Qed.

(** X18.  Notifications never refresh the forecast strip.  Once the calls
    of the load and of the handlers have all been made, in whatever order,
    the daily forecasts of the card are the ones the load computed from the
    forecast it read from the store, or none when there was no forecast or
    the aggregation threw: a forecast that arrives by notification replaces
    [forecastWeather] only. *)
Theorem dailyForecasts_never_refreshed (r : Card.stored)
    (ns : list Card.notification) (updates : list Card.update) :
  Card.life weekday r ns updates →
  Card.dailyForecasts (Card.card_after updates)
  = match Card.stored_forecast r with
    | Some forecast_list =>
        match dailyForecasts weekday forecast_list with
        | Returned days => days
        | Thrown _ => []
        end
    | None => []
    end.
Proof.
  unfold Card.life, Card.card_after. rewrite dailyForecasts_fold.
  set (keep := λ days u, match u with
                         | Card.setDailyForecasts v => v
                         | _ => days
                         end).
  assert (Forall (λ u, ∀ days, keep days u = days) (concat (Card.handler <$> ns)))
    as Hhandlers.
  { apply Forall_concat, Forall_fmap, Forall_forall. intros n _.
    destruct n as [data|data|data|[data|]]; cbn; try by repeat constructor.
    destruct (Card.usable_scale data); by repeat constructor. }
  intros Hlife.
  assert (∀ days, fold_left keep updates days
                  = fold_left keep (Card.loadInitialData weekday r) days) as ->.
  { revert Hhandlers.
    induction Hlife as [|u l1 l2 l _ IH|u l1 l2 l _ IH]; intros Hhandlers days.
    - done.
    - cbn. by apply IH.
    - apply Forall_cons in Hhandlers as [Hu Hrest]. cbn. rewrite Hu. by apply IH. }
  unfold Card.loadInitialData. rewrite !fold_left_app. cbn [fold_left keep].
  destruct (Card.stored_settings r), (Card.usable_scale (Card.stored_scale r));
    cbn [fold_left keep];
    (destruct (Card.stored_forecast r) as [forecast_list|]; [|done]);
    by destruct (dailyForecasts weekday forecast_list).
Qed.

(** X19.  When the function of the card throws instead of returning its
    elements.  It throws exactly when the theme is no member of the colour
    table, own or inherited, or the current weather is there with an empty
    [weather] array.  When it returns, the city line is not empty. *)
Theorem WeatherCard_throws (theme : string) (c : Card.card) :
  ((∃ e, Card.WeatherCard large_notation fraction_notation theme c = Thrown e)
   ↔ object_lookup Card.THEMES theme = Undefined ∨
     ∃ w, Card.currentWeather c = Some w ∧ Card.weather w = []) ∧
  (∀ v, Card.WeatherCard large_notation fraction_notation theme c = Returned v → Card.city v ≠ "").
Proof.
  unfold Card.WeatherCard, Card.condition_icon.
  destruct (object_lookup Card.THEMES theme) as [colors|member|];
    (destruct (Card.currentWeather c) as [w|];
     [destruct (Card.weather w) as [|condition ?] eqn:Hweather|]); cbn.
  all: split; [split|].
  all: try (intros v [= <-]; cbn;
            try destruct (String.eqb_spec (Card.name w) ""); done).
  all: try (intros v ?; discriminate).
  all: try (intros _; by eexists).
  all: try (intros [e ?]; discriminate).
  all: try (intros _; right; by exists w).
  all: try (intros _; by left).
  all: intros [?|(w' & ? & ?)]; simplify_eq; congruence.
Qed.

End Card.

(** *** The card of the example *)

Lemma three_days_life :
  Card.life CardExamples.monday CardExamples.three_days_stored CardExamples.forecast_arrives CardExamples.three_days_updates.
Proof.
  unfold Card.life. vm_compute.
  apply Card.interleaving_left, Card.interleaving_left, Card.interleaving_right,
    Card.interleaving_left, Card.interleaving_left, Card.interleaving_nil.
Defined.

Lemma forecast_row_of_forecast_witness :
  length (Card.forecast_row CardExamples.no_notation CardExamples.no_notation
            (Card.card_after CardExamples.three_days_updates)) = 2%nat.
Proof.
  erewrite <- Forall2_length;
    [|apply (forecast_row_of_forecast CardExamples.monday CardExamples.no_notation CardExamples.no_notation
               Examples.three_days (Card.card_after CardExamples.three_days_updates));
      [reflexivity|discriminate]].
  reflexivity.
Defined.

Lemma card_always_witness :
  Card.scale (Card.card_after (take 2 CardExamples.three_days_updates)) ≠ "" ∧
  (1 ≤ length (Card.forecast_row CardExamples.no_notation CardExamples.no_notation
                 (Card.card_after (take 2 CardExamples.three_days_updates))) ≤ 4)%nat.
Proof.
  apply (card_always CardExamples.monday CardExamples.no_notation CardExamples.no_notation
           CardExamples.three_days_stored CardExamples.forecast_arrives CardExamples.three_days_updates).
  - exact three_days_life.
  - by exists (drop 2 CardExamples.three_days_updates).
Defined.

Lemma dailyForecasts_never_refreshed_witness :
  Card.forecastWeather (Card.card_after CardExamples.three_days_updates) = Some [] ∧
  WeatherCard.dailyForecasts CardExamples.monday Examples.three_days
  = Returned (Card.dailyForecasts (Card.card_after CardExamples.three_days_updates)).
Proof.
  split; [reflexivity|].
  rewrite (dailyForecasts_never_refreshed CardExamples.monday CardExamples.three_days_stored
             CardExamples.forecast_arrives CardExamples.three_days_updates three_days_life).
  reflexivity.
Defined.

End CardFacts.

(** ** The tables *)

Module TableFacts.

Lemma own_lookup_Some {A} (table : list (string * A)) (k : string) (a : A) :
  own_lookup table k = Some a → (k, a) ∈ table.
Proof.
  induction table as [|[k' a'] rest IH]; cbn; [done|].
  destruct (String.eqb_spec k' k) as [->|_].
  - intros [= ->]. apply elem_of_cons. by left.
  - intros Hrest. apply elem_of_cons. right. by apply IH.
Qed.

Lemma existsb_eqb (k : string) (l : list string) :
  existsb (String.eqb k) l = bool_decide (k ∈ l).
Proof.
  induction l as [|k' rest IH]; cbn.
  - by rewrite bool_decide_eq_false_2 by apply not_elem_of_nil.
  - rewrite IH. destruct (String.eqb_spec k k') as [->|Hne]; cbn.
    + rewrite bool_decide_eq_true_2; [done|]. apply elem_of_cons. by left.
    + apply bool_decide_ext. rewrite elem_of_cons. tauto.
Qed.

(** X20.  [getWeatherIcon] always has something to show.  It never returns
    undefined; a condition of the table gets the icon of the table; any
    other condition gets the sun, the icon of [Clear], unless it is the name
    of a member every object inherits, and then that member is returned in
    place of an icon. *)
Theorem getWeatherIcon_total (condition : string) :
  getWeatherIcon condition ≠ Undefined ∧
  (∀ i, (condition, i) ∈ icons → getWeatherIcon condition = Own i) ∧
  (condition ∉ icons.*1 →
   getWeatherIcon condition
   = if bool_decide (condition ∈ object_prototype_members)
     then Inherited condition else Own WiDaySunny).
Proof.
  unfold getWeatherIcon, object_lookup. split; [|split].
  - destruct (own_lookup icons condition); [done|].
    by destruct (existsb _ _).
  - intros i Hin. unfold icons in Hin.
    repeat (apply elem_of_cons in Hin as [Hin|Hin]; [by simplify_eq|]).
    by apply elem_of_nil in Hin.
  - intros Hnew%ViewsFacts.own_lookup_None. rewrite Hnew, existsb_eqb.
    by case_bool_decide.
Qed.

(** X21.  The three theme tables name the same themes.  A name is the
    value of an option of the theme selector exactly when the view registry
    has it as an own key, and exactly when the card has colours for it; the
    default configuration selects one of them.  So no theme the selector
    offers makes [Render] or the card throw for want of an entry. *)
Theorem theme_tables_agree (name : string) :
  (name ∈ Constants.value <$> Constants.THEME_OPTIONS
   ↔ ∃ view, own_lookup Views.VIEW_REGISTRY name = Some view) ∧
  (name ∈ Constants.value <$> Constants.THEME_OPTIONS
   ↔ ∃ colors, own_lookup Card.THEMES name = Some colors) ∧
  Views.selectedView Constants.DEFAULT_CONFIG
  ∈ Constants.value <$> Constants.THEME_OPTIONS.
Proof.
  split; [|split].
  - split.
    + intros Hin. cbn in Hin.
      repeat (apply elem_of_cons in Hin as [->|Hin]; [by eexists|]).
      by apply elem_of_nil in Hin.
    + intros [view Hview%own_lookup_Some]. unfold Views.VIEW_REGISTRY in Hview.
      repeat (apply elem_of_cons in Hview as [[= -> _]|Hview]; [listed|]).
      by apply elem_of_nil in Hview.
  - split.
    + intros Hin. cbn in Hin.
      repeat (apply elem_of_cons in Hin as [->|Hin]; [by eexists|]).
      by apply elem_of_nil in Hin.
    + intros [colors Hcolors%own_lookup_Some]. unfold Card.THEMES in Hcolors.
      repeat (apply elem_of_cons in Hcolors as [[= -> _]|Hcolors]; [listed|]).
      by apply elem_of_nil in Hcolors.
  - cbn. listed.
Qed.

End TableFacts.

(** ** The template view *)

Module TemplateFacts.
Import Template.

(** X22.  What the template view hides as the scale grows.  The two lines
    of documentation are shown only when the button is, and the button only
    when the title is: growing the scale hides the lines first, then the
    button, then the title.  The subtitle of the store is never shown while
    it is loading. *)
Theorem Render_hides_in_order (uiScale : Q) (isLoading : bool) (subtitle : string) :
  let v := Render uiScale isLoading subtitle in
  (docs_information v = true → docs_button v = true) ∧
  (docs_button v = true → hero_title v = true) ∧
  (isLoading = true → hero_subtitle v = "Loading...") ∧
  (∀ larger, (uiScale <= larger)%Q →
             hero_title (Render larger isLoading subtitle) = true →
             hero_title v = true).
Proof.
  cbn. unfold Qlt_bool, double_1_2, double_1_35.
  repeat split.
  - rewrite !negb_true_iff, <- !not_true_iff_false, !Qle_bool_iff. lra.
  - rewrite !negb_true_iff, <- !not_true_iff_false, !Qle_bool_iff. lra.
  - by intros ->.
  - intros larger Hle.
    rewrite !negb_true_iff, <- !not_true_iff_false, !Qle_bool_iff. lra.
Qed.

End TemplateFacts.

(** ** The worker: what it touches and what it stores *)

Module WorkerMore.
Import Worker WorkerFacts.

Lemma writes_app (sc : scope) (t1 t2 : list event) :
  writes sc (t1 ++ t2) = writes sc t1 ++ writes sc t2.
Proof. apply omap_app. Qed.

Lemma device_only_nil (keys : list string) (s : state) :
  device_only keys s [] s.
Proof.
  unfold device_only. rewrite app_nil_r. repeat split; try done.
  intros k v Hin. by apply elem_of_nil in Hin.
Qed.

Lemma device_only_app (keys : list string) (s1 s2 s3 : state)
    (evs1 evs2 : list event) :
  device_only keys s1 evs1 s2 → device_only keys s2 evs2 s3 →
  device_only keys s1 (evs1 ++ evs2) s3.
Proof.
  intros (Ht1 & Hi1 & Hl1 & He1 & Hw1 & Hk1 & Hd1 & Hn1)
         (Ht2 & Hi2 & Hl2 & He2 & Hw2 & Hk2 & Hd2 & Hn2).
  unfold device_only. rewrite !writes_app, requests_app, !length_app.
  split; [by rewrite Ht2, Ht1, app_assoc|].
  split; [congruence|]. split; [congruence|]. split; [congruence|].
  split; [by rewrite Hw1, Hw2|].
  split; [intros k v [?|?]%elem_of_app; eauto|].
  split; [intros k Hk; rewrite Hd2, Hd1; done|lia].
Qed.

Lemma device_only_mono (keys keys' : list string) (s s' : state)
    (evs : list event) :
  keys ⊆ keys' → device_only keys s evs s' → device_only keys' s evs s'.
Proof.
  intros Hsub (Ht & Hi & Hl & He & Hw & Hk & Hd & Hn).
  unfold device_only. repeat split; try done.
  - intros k v Hin. apply Hsub. eauto.
  - intros k Hk'. apply Hd. intros Hin. apply Hk', Hsub, Hin.
Qed.

Ltac poll key :=
  run;
  match goal with
  | |- context [proxy_fetch ?w ?r] =>
      destruct (proxy_fetch w r) as [[ok st [data|]]|e]; cbn;
      try destruct (store_set w Device key data); cbn; tidy
  end;
  do 2 eexists; (split; [reflexivity|]); unfold device_only; cbn;
  repeat split; try done; try (cbn; lia);
  try (intros k v Hin;
       repeat (apply elem_of_cons in Hin as [Hin|Hin];
               [simplify_eq; apply elem_of_cons; by left|]);
       by apply elem_of_nil in Hin);
  try (intros k Hk; apply lookup_insert_ne; intros <-; apply Hk;
       apply elem_of_cons; by left).

Lemma getCurrentWeather_device_only (w : world) (s : state) :
  ∃ evs s',
    getCurrentWeather w s = (Returned tt, s') ∧
    device_only ["currentWeather"] s evs s'.
Proof. unfold getCurrentWeather. poll "currentWeather". Qed.

Lemma getForecast_device_only (w : world) (s : state) :
  ∃ evs s',
    getForecast w s = (Returned tt, s') ∧
    device_only ["weatherForecast"] s evs s'.
Proof. unfold getForecast. poll "weatherForecast". Qed.

Lemma ticks_device_only (hosts : list world) (s : state) :
  ∃ evs s',
    ticks hosts s = (Returned tt, s') ∧
    device_only ["currentWeather"] s evs s'.
Proof.
  revert s. induction hosts as [|w later IH]; intros s.
  - exists [], s. split; [done|]. apply device_only_nil.
  - cbn [ticks]. unfold interval_callback, bind.
    destruct (getCurrentWeather_device_only w s) as (evs1 & s1 & -> & H1).
    destruct (IH s1) as (evs2 & s2 & -> & H2).
    exists (evs1 ++ evs2), s2. split; [done|]. by eapply device_only_app.
Qed.

(** X23.  What the worker touches.  Over a whole run, the start and any
    number of ticks, under any hosts, the worker never throws, leaves the
    instance store and the flags of the form as they were, and writes the
    device store under [currentWeather] and [weatherForecast] only, at most
    once for each request it made.  The views read and write the instance
    store only, so nothing the worker fetches reaches them. *)
Theorem worker_device_only (w : world) (hosts : list world) (s : state) :
  ∃ evs s',
    run w hosts s = (Returned tt, s') ∧
    device_only ["currentWeather"; "weatherForecast"] s evs s'.
Proof.
  unfold run, openWeatherMapWorker, bind.
  destruct (getCurrentWeather_device_only w s) as (evs1 & s1 & -> & H1).
  destruct (getForecast_device_only w s1) as (evs2 & s2 & -> & H2).
  unfold emit. cbn.
  destruct (ticks_device_only hosts
              {| trace := trace s2 ++ [ESetInterval (30 * 60 * 1000)];
                 instance := instance s2; device := device s2;
                 loading := loading s2; error := error s2 |})
    as (evs3 & s3 & -> & H3).
  exists (evs1 ++ evs2 ++ [ESetInterval (30 * 60 * 1000)] ++ evs3), s3.
  split; [done|].
  eapply device_only_app;
    [eapply device_only_mono; [|exact H1]; intros k Hk; set_unfold; tauto|].
  eapply device_only_app;
    [eapply device_only_mono; [|exact H2]; intros k Hk; set_unfold; tauto|].
  eapply device_only_app;
    [|eapply device_only_mono; [|exact H3]; intros k Hk; set_unfold; tauto].
  unfold device_only. cbn. repeat split; try done.
  intros k v Hin. by apply elem_of_nil in Hin.
Qed.

(** X24.  The worker stores whatever body comes back.  Neither poll looks
    at [response.ok]: when the two requests of the start are answered with
    any status at all and a body that parses, and the device store accepts
    the writes, those bodies are what the device store holds under
    [currentWeather] and [weatherForecast] afterwards, an error body as much
    as a report. *)
Theorem worker_stores_any_body (w : world) (s : state)
    (current forecast : response) (v1 v2 : jsval) :
  proxy_fetch w WorkerCurrentWeather = Resolved current →
  proxy_fetch w WorkerForecast = Resolved forecast →
  body current = Some v1 →
  body forecast = Some v2 →
  store_set w Device "currentWeather" v1 = SetTrue →
  store_set w Device "weatherForecast" v2 = SetTrue →
  device (openWeatherMapWorker w s).2 !! "currentWeather" = Some v1 ∧
  device (openWeatherMapWorker w s).2 !! "weatherForecast" = Some v2.
Proof.
  intros Hcurrent Hforecast Hv1 Hv2 Hset1 Hset2.
  unfold openWeatherMapWorker, getCurrentWeather, getForecast. run.
  rewrite Hcurrent. cbn. rewrite Hv1. cbn. rewrite Hset1. cbn.
  rewrite Hforecast. cbn. rewrite Hv2. cbn. rewrite Hset2. cbn.
  split; [|apply lookup_insert_eq].
  rewrite lookup_insert_ne by discriminate. apply lookup_insert_eq.
Qed.

Lemma worker_stores_any_body_witness :
  device (openWeatherMapWorker WorkerHosts.refusing initial_state).2
    !! "currentWeather" = Some WorkerHosts.wrong_latitude ∧
  device (openWeatherMapWorker WorkerHosts.refusing initial_state).2
    !! "weatherForecast" = Some WorkerHosts.wrong_latitude.
Proof.
  by apply (worker_stores_any_body WorkerHosts.refusing initial_state
              {| ok := false; status := 400;
                 body := Some WorkerHosts.wrong_latitude |}
              {| ok := false; status := 400;
                 body := Some WorkerHosts.wrong_latitude |}).
Defined.

End WorkerMore.
